(** * Flash-learning-cards backend: text normalisation and AI response contract

    A shallow embedding of the backend server, in its revision with the
    flashcard and the quiz route, and the properties of its specification.

    Conventions of the embedding:
    - a JavaScript string is the list of its UTF-16 code units ([jsstring]);
    - a JavaScript integer-valued number is a [Z]; [NaN] is [None];
    - an [async] function is a computation in the monad [M], which records
      the calls to external capabilities and the [console.warn] sites in a
      trace and ends normally or by a thrown exception ([await] of a rejected
      promise is a throw);
    - what the file does not define (the JSON parser and the diagnostics of
      the runtime, the model, the HTTP client, the document extractors) is a
      field of the records [Engine] and [World]. *)

From Stdlib Require Import List ZArith NArith Bool Lia.
From Stdlib.Strings Require Import String Ascii Byte.
From Stdlib Require Import DecimalString DecimalPos.
Import ListNotations.

Set Implicit Arguments.

Local Open Scope Z_scope.

(** ** Strings *)

Module JsString.

(** A code unit; the runtime keeps them below [2^16]. *)
Definition char : Type := N.
Definition jsstring : Type := list char.

(** [s.length] *)
Definition length (s : jsstring) : Z := Z.of_nat (List.length s).

(** *** [Buffer.prototype.toString('utf-8')]: decoding with replacement *)

Definition REPLACEMENT : char := 0xFFFD%N.

Inductive utf8_state : Type :=
| Start
| Pending (code_point : N) (bytes_needed : nat) (lower upper : N).

(** A scalar value above the basic plane is a surrogate pair. *)
Definition utf16_encode (cp : N) : jsstring :=
  if (cp <? 0x10000)%N then [cp]
  else let c := (cp - 0x10000)%N in
       [(0xD800 + N.shiftr c 10)%N; (0xDC00 + N.land c 0x3FF)%N].

Definition between (lo hi b : N) : bool := ((lo <=? b) && (b <=? hi))%N.

Definition utf8_lead (b : N) : jsstring * utf8_state :=
  if (b <=? 0x7F)%N then ([b], Start)
  else if between 0xC2 0xDF b then ([], Pending (N.land b 0x1F) 1 0x80 0xBF)
  else if between 0xE0 0xEF b then
    ([], Pending (N.land b 0xF) 2
                 (if (b =? 0xE0)%N then 0xA0 else 0x80)%N
                 (if (b =? 0xED)%N then 0x9F else 0xBF)%N)
  else if between 0xF0 0xF4 b then
    ([], Pending (N.land b 0x7) 3
                 (if (b =? 0xF0)%N then 0x90 else 0x80)%N
                 (if (b =? 0xF4)%N then 0x8F else 0xBF)%N)
  else ([REPLACEMENT], Start).

(** An ill-placed byte ends the pending sequence with one replacement
    character and is then read again as a lead byte. *)
Definition utf8_step (st : utf8_state) (b : N) : jsstring * utf8_state :=
  match st with
  | Start => utf8_lead b
  | Pending cp needed lo hi =>
      if between lo hi b then
        let cp' := N.lor (N.shiftl cp 6) (N.land b 0x3F) in
        match needed with
        | S (S n) => ([], Pending cp' (S n) 0x80 0xBF)%N
        | _ => (utf16_encode cp', Start)
        end
      else let (out, st') := utf8_lead b in (REPLACEMENT :: out, st')
  end.

Fixpoint utf8_decode_from (st : utf8_state) (bytes : list byte) : jsstring :=
  match bytes with
  | [] => match st with Start => [] | Pending _ _ _ _ => [REPLACEMENT] end
  | b :: rest =>
      let (out, st') := utf8_step st (Byte.to_N b) in
      out ++ utf8_decode_from st' rest
  end.

Definition utf8_decode (bytes : list byte) : jsstring :=
  utf8_decode_from Start bytes.

(** A literal of the source, written in this file in UTF-8. *)
Definition js (s : string) : jsstring := utf8_decode (list_byte_of_string s).

Arguments js s : simpl never.

(** The double quote, for the literals that contain one. *)
Definition dq : jsstring := [34%N].

(** *** White space: the set shared by [trim] and the regular expression
    class [\s] (WhiteSpace and LineTerminator of the language). *)
Definition is_white_space (c : char) : bool :=
  (between 9 13 c || (c =? 32) || (c =? 0xA0) || (c =? 0x1680)
   || between 0x2000 0x200A c || (c =? 0x2028) || (c =? 0x2029)
   || (c =? 0x202F) || (c =? 0x205F) || (c =? 0x3000) || (c =? 0xFEFF))%N.

Fixpoint trimStart (s : jsstring) : jsstring :=
  match s with
  | c :: rest => if is_white_space c then trimStart rest else s
  | [] => []
  end.

Fixpoint trimEnd (s : jsstring) : jsstring :=
  match s with
  | [] => []
  | c :: rest =>
      match trimEnd rest with
      | [] => if is_white_space c then [] else [c]
      | kept => c :: kept
      end
  end.

(** [s.trim()] *)
Definition trim (s : jsstring) : jsstring := trimEnd (trimStart s).

(** *** Searching *)

Definition eqb (a b : jsstring) : bool :=
  if list_eq_dec N.eq_dec a b then true else false.

(** [s.startsWith(p)] *)
Fixpoint startsWith (s p : jsstring) : bool :=
  match p, s with
  | [], _ => true
  | _ :: _, [] => false
  | x :: p', c :: s' => (x =? c)%N && startsWith s' p'
  end.

Fixpoint indexOf_from (i : Z) (s p : jsstring) : Z :=
  match s with
  | [] => if startsWith [] p then i else -1
  | _ :: rest => if startsWith s p then i else indexOf_from (i + 1) rest p
  end.

(** [s.indexOf(p)]: the first position where [p] occurs, or [-1]. *)
Definition indexOf (s p : jsstring) : Z := indexOf_from 0 s p.

Fixpoint lastIndexOf_from (i : Z) (found : Z) (s p : jsstring) : Z :=
  match s with
  | [] => if startsWith [] p then i else found
  | _ :: rest =>
      lastIndexOf_from (i + 1) (if startsWith s p then i else found) rest p
  end.

(** [s.lastIndexOf(p)]: the last position where [p] occurs, or [-1]. *)
Definition lastIndexOf (s p : jsstring) : Z := lastIndexOf_from 0 (-1) s p.

(** [s.includes(p)] *)
Definition includes (s p : jsstring) : bool := negb (indexOf s p =? -1).

(** [s.substring(start, end)]: both ends are clamped to the string and
    swapped when out of order. *)
Definition substring (s : jsstring) (start end_ : Z) : jsstring :=
  let a := Z.min (Z.max start 0) (length s) in
  let b := Z.min (Z.max end_ 0) (length s) in
  firstn (Z.to_nat (Z.max a b - Z.min a b)) (skipn (Z.to_nat (Z.min a b)) s).

(** ASCII letters to lower case.  [toLowerCase] maps no code unit outside
    ASCII to an ASCII one except through a following combining mark, and a
    regular expression with flag [i] and without flag [u] never identifies
    an ASCII letter with a code unit outside ASCII; so on the ASCII patterns
    of this program both are this function. *)
Definition lower (c : char) : char :=
  if between 65 90 c then (c + 32)%N else c.

Definition toLowerCase (s : jsstring) : jsstring := map lower s.

(** [String(n)] for an integer. *)
Definition of_Z (n : Z) : jsstring :=
  match n with
  | Z0 => js "0"
  | Zpos p => js (NilEmpty.string_of_uint (Pos.to_uint p))
  | Zneg p => js "-" ++ js (NilEmpty.string_of_uint (Pos.to_uint p))
  end.

End JsString.
Import JsString.

(** ** Numbers *)

Module JsNumber.

(** The value of a digit in a radix up to 36. *)
Definition digit_value (c : char) : option Z :=
  if between 48 57 c then Some (Z.of_N c - 48)
  else if between 97 122 (lower c) then Some (Z.of_N (lower c) - 87)
  else None.

(** The longest prefix of digits of the radix; [None] when it is empty. *)
Fixpoint digits (radix : Z) (acc : option Z) (s : jsstring) : option Z :=
  match s with
  | [] => acc
  | c :: rest =>
      match digit_value c with
      | Some d =>
          if d <? radix
          then digits radix (Some (radix * match acc with Some a => a | None => 0 end + d)) rest
          else acc
      | None => acc
      end
  end.

(** [parseInt(s)] with no radix argument.  [None] is [NaN]; the two zeros
    of the language are the one [0] (both are falsy). *)
Definition parseInt (input : jsstring) : option Z :=
  let s := trimStart input in
  let '(sign, s) :=
    match s with
    | c :: r => if (c =? 45)%N then (-1, r) else if (c =? 43)%N then (1, r) else (1, s)
    | [] => (1, s)
    end in
  let '(radix, s) :=
    if startsWith s (js "0x") || startsWith s (js "0X") then (16, skipn 2 s) else (10, s) in
  match digits radix None s with
  | Some n => Some (sign * n)
  | None => None
  end.

(** [x || d] for a number [x]: [NaN] and [0] are falsy. *)
Definition or_default (x : option Z) (d : Z) : Z :=
  match x with
  | Some 0 | None => d
  | Some n => n
  end.

End JsNumber.
Import JsNumber.

(** ** JSON values *)

(** A number is kept as the decimal [mantissa * 10 ^ exponent] its literal
    denotes.  The members of an object are in the order of their first
    occurrence. *)
#[local] Set Warnings "-register-all".
Inductive json : Type :=
| JNull
| JBool (b : bool)
| JNumber (mantissa exponent : Z)
| JString (s : jsstring)
| JArray (items : list json)
| JObject (members : list (jsstring * json)).

Definition JInt (n : Z) : json := JNumber n 0.

(** ** Completions and exceptions *)

(** The exception values of the program: what [new Error(message)] builds,
    the errors of the runtime, and the rejections of the two libraries whose
    fields the program reads ([code], [response.status] and [request] of the
    HTTP client; [status] of the model client). *)
Inductive exn : Type :=
| Error (message : jsstring)
| TypeError (message : jsstring)
| SyntaxError (message : jsstring)
| AxiosError (message : jsstring) (code : option jsstring)
             (response_status : option Z) (request : bool)
| ApiError (message : jsstring) (status : option Z).

(** [error.message] *)
Definition message (e : exn) : jsstring :=
  match e with
  | Error m | TypeError m | SyntaxError m | AxiosError m _ _ _ | ApiError m _ => m
  end.

Inductive completion (A : Type) : Type :=
| Normal (a : A)
| Throw (e : exn).
Arguments Normal {A} a.
Arguments Throw {A} e.

(** ** The runtime *)

(** What the runtime decides and the program takes as given. *)
Record Engine : Type := {
  (** [JSON.parse]: the value, or the message of the [SyntaxError] *)
  JSON_parse : jsstring -> json + jsstring;
  (** the message of the [TypeError] of reading a property of [null] *)
  null_property_message : jsstring -> jsstring;
  (** [buffer.constants.MAX_STRING_LENGTH]: a longer string is not built *)
  MAX_STRING_LENGTH : Z
}.

(** [Array.isArray(v)] *)
Definition isArray (v : option json) : bool :=
  match v with Some (JArray _) => true | _ => false end.

(** [typeof v === 'string'] *)
Definition is_string (v : option json) : bool :=
  match v with Some (JString _) => true | _ => false end.

Fixpoint lookup (name : jsstring) (members : list (jsstring * json)) : option json :=
  match members with
  | [] => None
  | (k, v) :: rest => if eqb k name then Some v else lookup name rest
  end.

Section Runtime.
Variable eng : Engine.

(** [v.name] for a name that no prototype defines: a member of an object,
    [undefined] ([None]) on any other value, a [TypeError] on [null]. *)
Definition get (v : json) (name : jsstring) : completion (option json) :=
  match v with
  | JNull => Throw (TypeError (null_property_message eng name))
  | JObject members => Normal (lookup name members)
  | _ => Normal None
  end.

(** [buffer.toString('utf-8')] *)
Definition Buffer_toString (buffer : list byte) : completion jsstring :=
  let text := utf8_decode buffer in
  if MAX_STRING_LENGTH eng <? JsString.length text
  then Throw (Error (js "Cannot create a string longer than MAX_STRING_LENGTH characters"))
  else Normal text.

End Runtime.

(** ** A reference runtime

    A parser of the JSON grammar (RFC 8259, as [JSON.parse] reads it), used
    where a statement needs a concrete runtime.  The theorems below hold for
    every [Engine]. *)

Module Reference.

Definition is_json_ws (c : char) : bool :=
  ((c =? 32) || (c =? 9) || (c =? 10) || (c =? 13))%N.

Fixpoint skip_ws (s : jsstring) : jsstring :=
  match s with
  | c :: rest => if is_json_ws c then skip_ws rest else s
  | [] => []
  end.

Definition is_digit (c : char) : bool := between 48 57 c.

(** The digits at the head of [s], folded into [acc], with their count. *)
Fixpoint take_digits (acc : Z) (n : Z) (s : jsstring) : Z * Z * jsstring :=
  match s with
  | c :: rest =>
      if is_digit c then take_digits (10 * acc + (Z.of_N c - 48)) (n + 1) rest
      else (acc, n, s)
  | [] => (acc, n, s)
  end.

(** A number literal: an optional minus sign; a zero, or a non-zero digit
    and more digits; optionally a point and one digit or more; optionally
    an exponent mark, a sign and one digit or more. *)
Definition number (s : jsstring) : option (json * jsstring) :=
  let '(sign, s) :=
    match s with
    | c :: r => if (c =? 45)%N then (-1, r) else (1, s)
    | [] => (1, s)
    end in
  let int_part :=
    match s with
    | c :: r =>
        if (c =? 48)%N then Some (0, r)
        else if is_digit c then let '(v, _, r') := take_digits 0 0 s in Some (v, r')
        else None
    | [] => None
    end in
  match int_part with
  | None => None
  | Some (i, s) =>
      let frac_part :=
        match s with
        | c :: r =>
            if (c =? 46)%N then
              let '(v, n, r') := take_digits i 0 r in
              if n =? 0 then None else Some (v, n, r')
            else Some (i, 0, s)
        | [] => Some (i, 0, s)
        end in
      match frac_part with
      | None => None
      | Some (m, scale, s) =>
          let exp_part :=
            match s with
            | c :: r =>
                if ((c =? 101) || (c =? 69))%N then
                  let '(esign, r) :=
                    match r with
                    | c' :: r' =>
                        if (c' =? 45)%N then (-1, r')
                        else if (c' =? 43)%N then (1, r') else (1, r)
                    | [] => (1, r)
                    end in
                  let '(v, n, r') := take_digits 0 0 r in
                  if n =? 0 then None else Some (esign * v, r')
                else Some (0, s)
            | [] => Some (0, s)
            end in
          match exp_part with
          | None => None
          | Some (e, s) => Some (JNumber (sign * m) (e - scale), s)
          end
      end
  end.

Definition hex4 (a b c d : char) : option char :=
  match digit_value a, digit_value b, digit_value c, digit_value d with
  | Some x, Some y, Some z, Some w =>
      if (x <? 16) && (y <? 16) && (z <? 16) && (w <? 16)
      then Some (Z.to_N (((x * 16 + y) * 16 + z) * 16 + w))
      else None
  | _, _, _, _ => None
  end.

Definition simple_escape (e : char) : option char :=
  (if (e =? 34) || (e =? 92) || (e =? 47) then Some e
   else if e =? 98 then Some 8 else if e =? 102 then Some 12
   else if e =? 110 then Some 10 else if e =? 114 then Some 13
   else if e =? 116 then Some 9 else None)%N.

(** The characters of a string literal after its opening quote. *)
Fixpoint string_body (acc : jsstring) (s : jsstring) : option (jsstring * jsstring) :=
  match s with
  | [] => None
  | c :: r =>
      if (c =? 34)%N then Some (rev acc, r)
      else if (c =? 92)%N then
        match r with
        | [] => None
        | e :: r2 =>
            if (e =? 117)%N then
              match r2 with
              | a :: b :: c' :: d :: r3 =>
                  match hex4 a b c' d with
                  | Some u => string_body (u :: acc) r3
                  | None => None
                  end
              | _ => None
              end
            else match simple_escape e with
                 | Some x => string_body (x :: acc) r2
                 | None => None
                 end
        end
      else if (c <? 32)%N then None
      else string_body (c :: acc) r
  end.

(** A later member of the same name replaces the value of the earlier one. *)
Fixpoint set_member (k : jsstring) (v : json) (ms : list (jsstring * json))
  : list (jsstring * json) :=
  match ms with
  | [] => [(k, v)]
  | (k', v') :: rest => if eqb k' k then (k', v) :: rest else (k', v') :: set_member k v rest
  end.

Definition keyword (w : string) (v : json) (s : jsstring) : option (json * jsstring) :=
  if startsWith s (js w) then Some (v, skipn (List.length (js w)) s) else None.

Fixpoint value (fuel : nat) (s : jsstring) {struct fuel} : option (json * jsstring) :=
  match fuel with
  | O => None
  | S fuel' =>
      match skip_ws s with
      | [] => None
      | c :: r =>
          if (c =? 91)%N then
            match skip_ws r with
            | c2 :: r2 => if (c2 =? 93)%N then Some (JArray [], r2) else elements fuel' [] r
            | [] => None
            end
          else if (c =? 123)%N then
            match skip_ws r with
            | c2 :: r2 => if (c2 =? 125)%N then Some (JObject [], r2) else members fuel' [] r
            | [] => None
            end
          else if (c =? 34)%N then
            match string_body [] r with
            | Some (str, r') => Some (JString str, r')
            | None => None
            end
          else if (c =? 116)%N then keyword "true" (JBool true) (c :: r)
          else if (c =? 102)%N then keyword "false" (JBool false) (c :: r)
          else if (c =? 110)%N then keyword "null" JNull (c :: r)
          else number (c :: r)
      end
  end
with elements (fuel : nat) (acc : list json) (s : jsstring) {struct fuel}
  : option (json * jsstring) :=
  match fuel with
  | O => None
  | S fuel' =>
      match value fuel' s with
      | None => None
      | Some (v, r) =>
          match skip_ws r with
          | c :: r' =>
              if (c =? 44)%N then elements fuel' (v :: acc) r'
              else if (c =? 93)%N then Some (JArray (rev (v :: acc)), r')
              else None
          | [] => None
          end
      end
  end
with members (fuel : nat) (acc : list (jsstring * json)) (s : jsstring) {struct fuel}
  : option (json * jsstring) :=
  match fuel with
  | O => None
  | S fuel' =>
      match skip_ws s with
      | c :: r =>
          if (c =? 34)%N then
            match string_body [] r with
            | None => None
            | Some (k, r1) =>
                match skip_ws r1 with
                | c1 :: r2 =>
                    if (c1 =? 58)%N then
                      match value fuel' r2 with
                      | None => None
                      | Some (v, r3) =>
                          match skip_ws r3 with
                          | c3 :: r4 =>
                              if (c3 =? 44)%N then members fuel' (set_member k v acc) r4
                              else if (c3 =? 125)%N then Some (JObject (set_member k v acc), r4)
                              else None
                          | [] => None
                          end
                      end
                    else None
                | [] => None
                end
            end
          else None
      | [] => None
      end
  end.

(** One value, white space around it, and nothing else.  Every call of the
    three functions above follows at least one consumed character or is the
    first of an array or object, so twice the length is fuel enough. *)
Definition parse (s : jsstring) : json + jsstring :=
  match value (2 * List.length s + 2) s with
  | Some (v, rest) =>
      match skip_ws rest with
      | [] => inl v
      | _ :: _ => inr (js "Unexpected non-whitespace character after JSON")
      end
  | None => inr (js "Unexpected token in JSON")
  end.

Definition engine : Engine := {|
  JSON_parse := parse;
  null_property_message name :=
    js "Cannot read properties of null (reading '" ++ name ++ js "')";
  MAX_STRING_LENGTH := 0x1fffffe8
|}.

End Reference.

(** ** Effects *)

(** What a run asks of the outside, in order: the calls to the HTTP client,
    to the model and to the JSON parser of the runtime, and the
    [console.warn] lines.  ([console.log] and [console.error] carry no data
    back and are left out.) *)
Inductive event : Type :=
| HttpGet (url : jsstring)
| ModelCall (prompt : jsstring)
| JsonParse (text : jsstring)
| Warn (line : jsstring).

Definition is_model_call (e : event) : bool :=
  match e with ModelCall _ => true | _ => false end.
Definition is_http_get (e : event) : bool :=
  match e with HttpGet _ => true | _ => false end.
Definition is_json_parse (e : event) : bool :=
  match e with JsonParse _ => true | _ => false end.

(** A computation: its trace, and how it ends. *)
Definition M (A : Type) : Type := list event * completion A.

Definition ret {A} (a : A) : M A := ([], Normal a).
Definition throw {A} (e : exn) : M A := ([], Throw e).
Definition emit (e : event) : M unit := ([e], Normal tt).
Definition lift {A} (c : completion A) : M A := ([], c).

Definition bind {A B} (m : M A) (k : A -> M B) : M B :=
  match m with
  | (t, Normal a) => let (t', c) := k a in (t ++ t', c)
  | (t, Throw e) => (t, Throw e)
  end.

(** [try { m } catch (e) { handler }] *)
Definition try_catch {A} (m : M A) (handler : exn -> M A) : M A :=
  match m with
  | (t, Normal a) => (t, Normal a)
  | (t, Throw e) => let (t', c) := handler e in (t ++ t', c)
  end.

Declare Scope js_scope.
Delimit Scope js_scope with js.
Notation "x <- m ;; k" := (bind m (fun x => k))
  (at level 61, m at next level, right associativity) : js_scope.
Notation "m ;; k" := (bind m (fun _ => k))
  (at level 61, right associativity) : js_scope.
Local Open Scope js_scope.

(** [a || b] on strings: the empty string is falsy. *)
Definition or_else (a b : jsstring) : jsstring :=
  match a with [] => b | _ :: _ => a end.

(** [`${v}`] for a string that may be [undefined]. *)
Definition show (v : option jsstring) : jsstring :=
  match v with Some s => s | None => js "undefined" end.

(** ** The outside world *)

(** What [generateContent] gives: a rejection; a response with no
    [candidates[0].content] (with the reasons the provider states); or the
    text of the first part of the first candidate. *)
Inductive model_outcome : Type :=
| Rejected (message : jsstring) (status : option Z)
| NoContent (blockReason finishReason : option jsstring)
| Reply (text : jsstring).

Definition model : Type := jsstring -> model_outcome.

(** The handles set at start-up: all three with a key and a successful
    initialisation, none otherwise. *)
Record Gemini : Type := {
  genAI : bool;
  modelFlashcard : option model;
  modelQuiz : option model
}.

(** [response.data]: a string, or what the client made of the body. *)
Inductive response_data : Type :=
| DataString (s : jsstring)
| DataOther.

Record axios_response : Type := {
  status : Z;
  content_type : option jsstring;
  data : response_data
}.

(** The candidate regions of the page, in the order the program tries them. *)
Inductive region : Type := Main | Article | Content | PostContent | Body.

Record World : Type := {
  gemini : Gemini;
  (** [pdf(buffer)]: the text, or a failure *)
  pdf : list byte -> option jsstring;
  (** [mammoth.extractRawText({buffer})]: the raw text, or a failure *)
  mammoth_extractRawText : list byte -> option jsstring;
  (** [axios.get(url, ...)]: a response, or a rejection *)
  axios_get : jsstring -> axios_response + exn;
  (** [cheerio.load(data)], the non-content elements removed, then the text
      of a region *)
  cheerio_text : response_data -> completion (region -> jsstring)
}.

(** ** Input *)

(** [req.file] with memory storage. *)
Record uploaded_file : Type := {
  originalname : jsstring;
  mimetype : jsstring;
  buffer : list byte
}.

(** The pair [(inputType, data)] as the routes build it. *)
Inductive input : Type :=
| Text (data : option jsstring)
| File (data : option uploaded_file)
| Url (data : option jsstring)
| Other.

Definition text_plain : jsstring := js "text/plain".
Definition application_pdf : jsstring := js "application/pdf".
Definition docx : jsstring :=
  js "application/vnd.openxmlformats-officedocument.wordprocessingml.document".

(** *** The upload middleware *)

Definition allowedTypes : list jsstring := [text_plain; application_pdf; docx].
Definition fileSize_limit : Z := 10 * 1024 * 1024.

Definition size (f : uploaded_file) : Z := Z.of_nat (List.length (buffer f)).

(** The file filter, then the size limit: the file in [req.file], or the
    body of the 400 response of [handleMulterError]. *)
Definition upload_single (part : option uploaded_file) : option uploaded_file + jsstring :=
  match part with
  | None => inl None
  | Some f =>
      if existsb (eqb (mimetype f)) allowedTypes then
        if fileSize_limit <? size f
        then inr (js "Fehler beim Datei-Upload: File too large")
        else inl (Some f)
      else inr (js "Ungültiger Dateityp: " ++ mimetype f ++ js ".")
  end.

(** ** Text extraction *)

Definition binary_extensions : list jsstring :=
  map js ["jpg"; "jpeg"; "png"; "gif"; "mp3"; "mp4"; "zip"; "exe"; "dmg"]%string.

Definition endsWith (s p : jsstring) : bool := startsWith (rev s) (rev p).

(** The test of the binary-file pattern: a dot and one of the extensions at
    the very end of the string, letters in either case. *)
Definition is_binary_url (url : jsstring) : bool :=
  existsb (fun ext => endsWith (toLowerCase url) (js "." ++ ext)) binary_extensions.

(** [text.replace(/\s\s+/g, ' ')]: a run of two or more white-space
    characters becomes one space; [pending] is the run read so far. *)
Fixpoint collapse_from (pending : list char) (s : jsstring) : jsstring :=
  let flush := match pending with [] => [] | [w] => [w] | _ => [32%N] end in
  match s with
  | [] => flush
  | c :: rest =>
      if is_white_space c then collapse_from (c :: pending) rest
      else flush ++ c :: collapse_from [] rest
  end.

Definition collapse_whitespace (s : jsstring) : jsstring := collapse_from [] s.

Section Server.
Variable eng : Engine.
Variable w : World.

(** The [catch] of the URL branch. *)
Definition url_error (error : exn) : M jsstring :=
  match error with
  | AxiosError m code response_status request =>
      if match code with Some c => eqb c (js "ECONNABORTED") | None => false end
      then throw (Error (js "URL Timeout."))
      else match response_status with
           | Some st => throw (Error (js "URL Fehler: Status " ++ of_Z st))
           | None =>
               if request then throw (Error (js "URL Fehler: Keine Antwort."))
               else throw (Error (js "URL Fehler: " ++ m))
           end
  | _ => throw (Error (js "URL Fehler: " ++ message error))
  end.

Definition extract_html (htmlContent : response_data) : M jsstring :=
  select <- lift (cheerio_text w htmlContent) ;;
  let text :=
    or_else (select Main) (or_else (select Article) (or_else (select Content)
      (or_else (select PostContent) (select Body)))) in
  let text := trim (collapse_whitespace text) in
  if JsString.length text =? 0 then
    emit (Warn (js "Extracted text from URL empty.")) ;;
    ret (js "[Kein Text von URL extrahiert.]")
  else
    (if JsString.length text <? 150
     then emit (Warn (js "Extracted text from URL very short ("
                        ++ of_Z (JsString.length text) ++ js " chars)."))
     else ret tt) ;;
    ret text.

Definition extract_url (arg : option jsstring) : M jsstring :=
  try_catch
    (match arg with
     | None => throw (Error (js "Ungültige URL."))
     | Some url =>
         if match url with [] => true | _ => negb (startsWith url (js "http")) end
         then throw (Error (js "Ungültige URL."))
         else if is_binary_url url then ret (js "[Binärdatei (" ++ url ++ js ")]")
         else
           emit (HttpGet url) ;;
           response <- lift (match axios_get w url with
                             | inl r => Normal r
                             | inr e => Throw e
                             end) ;;
           let contentType := content_type response in
           if 400 <=? status response
           then throw (Error (js "URL Fehler: Status " ++ of_Z (status response)))
           else
             let lowered := option_map toLowerCase contentType in
             if match lowered with
                | None | Some [] => true
                | Some l => negb (includes l (js "html"))
                end
             then
               match lowered, data response with
               | Some l, DataString body =>
                   if includes l text_plain then ret (substring body 0 5000)
                   else ret (js "[Kein HTML (" ++ show contentType ++ js ")]")
               | _, _ => ret (js "[Kein HTML (" ++ show contentType ++ js ")]")
               end
             else extract_html (data response)
     end)
    url_error.

Definition extractText (i : input) : M jsstring :=
  match i with
  | Text data => ret (match data with Some s => s | None => [] end)
  | File (Some f) =>
      if eqb (mimetype f) text_plain then
        try_catch (lift (Buffer_toString eng (buffer f)))
                  (fun _ => throw (Error (js "Textdatei lesen fehlgeschlagen.")))
      else if eqb (mimetype f) application_pdf then
        match pdf w (buffer f) with
        | Some text => ret text
        | None => throw (Error (js "PDF-Verarbeitung fehlgeschlagen."))
        end
      else if eqb (mimetype f) docx then
        match mammoth_extractRawText w (buffer f) with
        | Some text => ret text
        | None => throw (Error (js "DOCX-Verarbeitung fehlgeschlagen."))
        end
      else
        emit (Warn (js "Unsupported file type: " ++ mimetype f)) ;;
        throw (Error (js "Nicht unterstützter Dateityp: " ++ mimetype f))
  | Url data => extract_url data
  | File None | Other => throw (Error (js "Ungültiger Input-Typ."))
  end.

End Server.

(** ** Generation *)

(** [a.slice(0, end)] *)
Definition slice0 {A} (a : list A) (end_ : Z) : list A :=
  let len := Z.of_nat (List.length a) in
  firstn (Z.to_nat (if end_ <? 0 then Z.max (len + end_) 0 else Z.min end_ len)) a.

Definition MAX_TEXT_LENGTH : Z := 25000.

(** [!textContent || textContent.trim().length < minimum] *)
Definition too_short (minimum : Z) (textContent : jsstring) : bool :=
  match textContent with
  | [] => true
  | _ :: _ => JsString.length (trim textContent) <? minimum
  end.

(** [Math.max(3, Math.min(25, maxCards))] *)
Definition numCards (maxCards : Z) : Z := Z.max 3 (Z.min 25 maxCards).

(** [Math.max(3, Math.min(15, numQuestions))] *)
Definition numberOfQuestions (numQuestions : Z) : Z := Z.max 3 (Z.min 15 numQuestions).

Definition placeholder_card : json :=
  JObject [(js "front", JString (js "Kein Inhalt?")); (js "back", JString (js "Text zu kurz."))].

Definition flashcard_prompt (numCards : Z) (truncatedText : jsstring) : jsstring :=
  js "Erstelle Lernkarten (Flashcards)... Erstelle maximal " ++ of_Z numCards
  ++ js " Lernkarten... Text: --- " ++ truncatedText ++ js " --- JSON-Array:".

Definition nl : jsstring := [10%N].

Definition quiz_prompt (numberOfQuestions : Z) (truncatedText : jsstring) : jsstring :=
  nl
  ++ js "        Erstelle basierend auf dem folgenden Text ein Multiple-Choice-Quiz mit Mehrfachauswahlmöglichkeit." ++ nl
  ++ js "        Zielgruppe: Lernende, die den Inhalt des Textes verstehen und überprüfen möchten." ++ nl
  ++ js "        Anforderungen:" ++ nl
  ++ js "        1.  Generiere genau " ++ of_Z numberOfQuestions ++ js " Fragen." ++ nl
  ++ js "        2.  Jede Frage muss sich klar auf wichtige Informationen oder Schlüsselkonzepte im Text beziehen." ++ nl
  ++ js "        3.  Formuliere die Fragen klar und eindeutig. Es kann EINE oder MEHRERE korrekte Antworten geben." ++ nl
  ++ js "        4.  Erstelle für jede Frage genau 4 Antwortoptionen (ein Array von Strings)." ++ nl
  ++ js "        5.  Mindestens EINE der vier Optionen muss korrekt sein." ++ nl
  ++ js "        6.  Die falschen Antwortoptionen (Distraktoren) müssen plausibel klingen, aber eindeutig falsch sein." ++ nl
  ++ js "        7.  Gib das Ergebnis ausschließlich als JSON-Array zurück. Jedes Objekt im Array repräsentiert eine Frage und muss exakt die folgende Struktur haben:" ++ nl
  ++ js "            {" ++ nl
  ++ js "              " ++ dq ++ js "question" ++ dq ++ js ": " ++ dq ++ js "Die Frage als String." ++ dq ++ js "," ++ nl
  ++ js "              " ++ dq ++ js "options" ++ dq ++ js ": [" ++ dq ++ js "Antwort A" ++ dq ++ js ", " ++ dq ++ js "Antwort B" ++ dq ++ js ", " ++ dq ++ js "Antwort C" ++ dq ++ js ", " ++ dq ++ js "Antwort D" ++ dq ++ js "]," ++ nl
  ++ js "              " ++ dq ++ js "correctAnswerIndices" ++ dq ++ js ": [index1, index2, ...] // Array mit den Indizes (0-3) ALLER korrekten Antworten." ++ nl
  ++ js "            }" ++ nl
  ++ js "        8.  Stelle sicher, dass das gesamte Ergebnis valides JSON ist. Strings dürfen keine unmaskierten Zeilenumbrüche enthalten." ++ nl
  ++ nl
  ++ js "        Text:" ++ nl
  ++ js "        ---" ++ nl
  ++ js "        " ++ truncatedText ++ nl
  ++ js "        ---" ++ nl
  ++ nl
  ++ js "        JSON-Array mit Quizfragen (Mehrfachauswahl möglich):" ++ nl
  ++ js "    ".

(** *** The comparisons of the quiz validation

    [idx >= 0] and [idx <= 3] compare the binary64 number nearest to the
    literal [m * 10 ^ e] (ties to even).  That number is at least zero
    exactly when the literal is at least [- 2 ^ -1075], half of the least
    subnormal, and at most three exactly when the literal is at most
    [3 + 2 ^ -52], half of the gap above three. *)
Definition number_ge_0 (m e : Z) : bool :=
  (0 <=? m) || ((e <? 0) && (- m * 2 ^ 1075 <=? 10 ^ (- e))).

Definition number_le_3 (m e : Z) : bool :=
  if m <=? 0 then true
  else if e =? 0 then m <=? 3
  else if 0 <? e then false
  else m * 2 ^ 52 <=? (3 * 2 ^ 52 + 1) * 10 ^ (- e).

(** [typeof idx === 'number' && idx >= 0 && idx <= 3] *)
Definition valid_index (idx : json) : bool :=
  match idx with
  | JNumber m e => number_ge_0 m e && number_le_3 m e
  | _ => false
  end.

Section Adapter.
Variable eng : Engine.
Variable w : World.

(** [await model.generateContent(...)] *)
Definition generateContent (m : model) (prompt : jsstring) : M model_outcome :=
  emit (ModelCall prompt) ;;
  match m prompt with
  | Rejected msg st => throw (ApiError msg st)
  | outcome => ret outcome
  end.

(** [JSON.parse(s)] *)
Definition parse (s : jsstring) : M json :=
  emit (JsonParse s) ;;
  match JSON_parse eng s with
  | inl v => ret v
  | inr msg => throw (SyntaxError msg)
  end.

(** The inner [try] of the flashcard generation. *)
Definition read_flashcards (numCards : Z) (aiTextResponse : jsstring) : M (list json) :=
  try_catch
    (let startIndex := indexOf aiTextResponse (js "[") in
     let endIndex := lastIndexOf aiTextResponse (js "]") in
     if (startIndex =? -1) || (endIndex =? -1) || (endIndex <? startIndex)
     then throw (Error (js "KI-Antwort (Flashcards) ohne JSON-Array."))
     else
       let jsonString := substring aiTextResponse startIndex (endIndex + 1) in
       flashcards <- parse jsonString ;;
       match flashcards with
       | JArray items => ret (slice0 items numCards)
       | _ => throw (Error (js "KI-Antwort (Flashcards) kein Array."))
       end)
    (fun parseError =>
       throw (Error (js "KI-Antwort (Flashcards) nicht lesbar: " ++ message parseError))).

(** The outer [try] of the flashcard generation: the call and the reading
    of the response. *)
Definition ask_flashcards (modelFlashcard : model) (numCards : Z) (prompt : jsstring)
  : M (list json) :=
  try_catch
    (response <- generateContent modelFlashcard prompt ;;
     match response with
     | Reply aiTextResponse => read_flashcards numCards aiTextResponse
     | NoContent _ _ => throw (Error (js "Keine gültige KI-Antwort (Flashcards)."))
     | Rejected msg st => throw (ApiError msg st)
     end)
    (fun error =>
       throw (Error (or_else (message error) (js "KI-Fehler (Flashcards).")))).

(** The parameter [maxCards] has the default 15; both routes pass it. *)
Definition generateFlashcardsAI (textContent : jsstring) (maxCards : Z) : M (list json) :=
  match (if genAI (gemini w) then modelFlashcard (gemini w) else None) with
  | None => throw (Error (js "KI-Dienst (Flashcard) nicht verfügbar."))
  | Some modelFlashcard =>
      let numCards := numCards maxCards in
      if too_short 10 textContent then ret [placeholder_card]
      else
        let truncatedText := substring textContent 0 MAX_TEXT_LENGTH in
        (if MAX_TEXT_LENGTH <? JsString.length textContent
         then emit (Warn (js "Text truncated.")) else ret tt) ;;
        let prompt := flashcard_prompt numCards truncatedText in
        ask_flashcards modelFlashcard numCards prompt
  end.

(** The condition of the structure warning, on the first question.  Only
    its first property access can throw: the others follow a successful
    one on the same value. *)
Definition structure_suspect (firstQuestion : json) : completion bool :=
  match get eng firstQuestion (js "question") with
  | Throw e => Throw e
  | Normal question =>
      if negb (is_string question) then Normal true
      else
        match get eng firstQuestion (js "options") with
        | Throw e => Throw e
        | Normal (Some (JArray options)) =>
            if negb (Z.of_nat (List.length options) =? 4) then Normal true
            else
              match get eng firstQuestion (js "correctAnswerIndices") with
              | Throw e => Throw e
              | Normal (Some (JArray correctAnswerIndices)) =>
                  Normal ((Z.of_nat (List.length correctAnswerIndices) =? 0)
                          || negb (forallb valid_index correctAnswerIndices))
              | Normal _ => Normal true
              end
        | Normal _ => Normal true
        end
  end.

Definition structure_warning : jsstring :=
  js "Parsed quiz array elements might not have the correct structure: {question: string, options: string[4], correctAnswerIndices: number[]}.".

(** The inner [try] of the quiz generation. *)
Definition read_quiz (numberOfQuestions : Z) (aiTextResponse : jsstring) : M (list json) :=
  try_catch
    (let startIndex := indexOf aiTextResponse (js "[") in
     let endIndex := lastIndexOf aiTextResponse (js "]") in
     if (startIndex =? -1) || (endIndex =? -1) || (endIndex <? startIndex)
     then throw (Error (js "KI-Antwort (Quiz) ohne JSON-Array."))
     else
       let jsonString := substring aiTextResponse startIndex (endIndex + 1) in
       quizQuestions <- parse jsonString ;;
       match quizQuestions with
       | JArray items =>
           match items with
           | firstQuestion :: _ =>
               suspect <- lift (structure_suspect firstQuestion) ;;
               if (suspect : bool) then emit (Warn structure_warning) else ret tt
           | [] => ret tt
           end ;;
           ret (slice0 items numberOfQuestions)
       | _ => throw (Error (js "AI quiz response was not a valid JSON array."))
       end)
    (fun parseError =>
       throw (Error (js "Konnte das Quiz aus der KI-Antwort nicht korrekt extrahieren: "
                       ++ message parseError))).

(** [reason ? ` label ${reason}` : ''] *)
Definition reason_suffix (label : string) (reason : option jsstring) : jsstring :=
  match reason with
  | Some (c :: r) => js label ++ c :: r
  | _ => []
  end.

(** The outer [catch] of the quiz generation. *)
Definition quiz_error (error : exn) : M (list json) :=
  let m :=
    match error with
    | ApiError msg (Some st) =>
        if st =? 0 then msg else msg ++ js " (Status: " ++ of_Z st ++ js ")"
    | _ => message error
    end in
  throw (Error (or_else m (js "Fehler bei der Kommunikation mit dem KI-Dienst für das Quiz."))).

(** The outer [try] of the quiz generation.  [activeModel] is
    [modelQuiz || modelFlashcard], and [modelQuiz] is set here. *)
Definition ask_quiz (activeModel : model) (numberOfQuestions : Z) (prompt : jsstring)
  : M (list json) :=
  try_catch
    (response <- generateContent activeModel prompt ;;
     match response with
     | Reply aiTextResponse => read_quiz numberOfQuestions aiTextResponse
     | NoContent blockReason finishReason =>
         emit (Warn (js "Gemini response blocked/empty (Quiz). Block: " ++ show blockReason
                       ++ js ", Finish: " ++ show finishReason)) ;;
         throw (Error (js "Keine gültige Quiz-Antwort von der KI erhalten."
                         ++ reason_suffix " Grund: " blockReason
                         ++ reason_suffix " Status: " finishReason))
     | Rejected msg st => throw (ApiError msg st)
     end)
    quiz_error.

(** The parameter [numQuestions] has the default 5; its route passes it. *)
Definition generateQuizAI (textContent : jsstring) (numQuestions : Z) : M (list json) :=
  match (if genAI (gemini w) then modelQuiz (gemini w) else None) with
  | None => throw (Error (js "KI-Dienst (Quiz) ist nicht verfügbar (API-Schlüssel fehlt?)."))
  | Some modelQuiz =>
      let numberOfQuestions := numberOfQuestions numQuestions in
      if too_short 50 textContent then ret []
      else
        let truncatedText := substring textContent 0 MAX_TEXT_LENGTH in
        (if MAX_TEXT_LENGTH <? JsString.length textContent
         then emit (Warn (js "Text content truncated for quiz API call.")) else ret tt) ;;
        let prompt := quiz_prompt numberOfQuestions truncatedText in
        ask_quiz modelQuiz numberOfQuestions prompt
  end.

End Adapter.

(** ** The routes *)

(** The fields of [req.body] the routes read, each absent or a string, and
    the part of the upload. *)
Record request : Type := {
  inputType : option jsstring;
  textData : option jsstring;
  urlData : option jsstring;
  maxCards : option jsstring;
  numQuestions : option jsstring;
  inputFile : option uploaded_file
}.

(** The JSON body of the answer, with its status. *)
Inductive response : Type :=
| Json_flashcards (flashcards : list json)
| Json_quiz (quiz : list json)
| Json_error (code : Z) (error : jsstring).

(** [!data?.trim()] *)
Definition blank (data : option jsstring) : bool :=
  match data with
  | None => true
  | Some s => match trim s with [] => true | _ :: _ => false end
  end.

(** The choice of [data] by [inputType]; [None] is the 400 answer for an
    unknown type. *)
Definition select_input (req : request) (file : option uploaded_file)
  : completion (option input) :=
  let type_is t := match inputType req with Some i => eqb i (js t) | None => false end in
  if type_is "text"%string then
    if blank (textData req) then Throw (Error (js "Kein Text."))
    else Normal (Some (Text (textData req)))
  else if type_is "file"%string then
    match file with
    | None => Throw (Error (js "Keine Datei."))
    | Some f => Normal (Some (File (Some f)))
    end
  else if type_is "url"%string then
    if blank (urlData req) then Throw (Error (js "Keine URL."))
    else Normal (Some (Url (urlData req)))
  else Normal None.

(** [parseInt(req.body.maxCards) || 15] *)
Definition requested_maxCards (req : request) : Z :=
  or_default (parseInt (show (maxCards req))) 15.

(** [parseInt(req.body.numQuestions) || 5] *)
Definition requested_numQuestions (req : request) : Z :=
  or_default (parseInt (show (numQuestions req))) 5.

Section Routes.
Variable eng : Engine.
Variable w : World.

(** [res.json] of the records, or the 500 answer of the [catch]. *)
Definition respond (answer : list json -> response) (fallback : string)
           (m : M (list json)) : list event * response :=
  let (trace, result) := m in
  (trace,
   match result with
   | Normal records => answer records
   | Throw error => Json_error 500 (or_else (message error) (js fallback))
   end).

(** The body of a route after the upload middleware. *)
Definition serve (req : request) (file : option uploaded_file)
           (generate : jsstring -> M (list json)) (answer : list json -> response)
           (fallback : string) : list event * response :=
  match select_input req file with
  | Normal None => ([], Json_error 400 (js "Ungültiger Typ."))
  | Normal (Some i) =>
      respond answer fallback
        (textContent <- extractText eng w i ;; generate textContent)
  | Throw error => respond answer fallback (throw error)
  end.

(** [POST /api/generate] *)
Definition api_generate (req : request) : list event * response :=
  match upload_single (inputFile req) with
  | inr error => ([], Json_error 400 error)
  | inl file =>
      let maxCards := requested_maxCards req in
      serve req file (fun textContent => generateFlashcardsAI eng w textContent maxCards)
            Json_flashcards "Serverfehler (Flashcards)."
  end.

(** [POST /api/generate-quiz] *)
Definition api_generate_quiz (req : request) : list event * response :=
  match upload_single (inputFile req) with
  | inr error => ([], Json_error 400 error)
  | inl file =>
      let numQuestions := requested_numQuestions req in
      serve req file (fun textContent => generateQuizAI eng w textContent numQuestions)
            Json_quiz "Serverfehler (Quiz)."
  end.

End Routes.

(** ** The two kinds of generation, side by side *)

Inductive kind : Type := Flashcards | Quiz.

Definition minimum_length (k : kind) : Z :=
  match k with Flashcards => 10 | Quiz => 50 end.

Definition maximum_count (k : kind) : Z :=
  match k with Flashcards => 25 | Quiz => 15 end.

Definition default_count (k : kind) : Z :=
  match k with Flashcards => 15 | Quiz => 5 end.

(** The count a generation works with. *)
Definition clamp (k : kind) (count : Z) : Z :=
  match k with Flashcards => numCards count | Quiz => numberOfQuestions count end.

Definition prompt (k : kind) : Z -> jsstring -> jsstring :=
  match k with Flashcards => flashcard_prompt | Quiz => quiz_prompt end.

(** The result of the short-circuit on a short text. *)
Definition short_circuit (k : kind) : list json :=
  match k with Flashcards => [placeholder_card] | Quiz => [] end.

Definition truncation_line (k : kind) : jsstring :=
  match k with
  | Flashcards => js "Text truncated."
  | Quiz => js "Text content truncated for quiz API call."
  end.

Definition unavailable (k : kind) : jsstring :=
  match k with
  | Flashcards => js "KI-Dienst (Flashcard) nicht verfügbar."
  | Quiz => js "KI-Dienst (Quiz) ist nicht verfügbar (API-Schlüssel fehlt?)."
  end.

(** The message of a response that could not be read starts with
    [unreadable k]; [no_array k] is the detail for missing brackets. *)
Definition unreadable (k : kind) : jsstring :=
  match k with
  | Flashcards => js "KI-Antwort (Flashcards) nicht lesbar: "
  | Quiz => js "Konnte das Quiz aus der KI-Antwort nicht korrekt extrahieren: "
  end.

Definition no_array (k : kind) : jsstring :=
  match k with
  | Flashcards => js "KI-Antwort (Flashcards) ohne JSON-Array."
  | Quiz => js "KI-Antwort (Quiz) ohne JSON-Array."
  end.

(** The handle a generation needs; [None] when the service is not set up. *)
Definition model_of (w : World) (k : kind) : option model :=
  if genAI (gemini w) then
    match k with
    | Flashcards => modelFlashcard (gemini w)
    | Quiz => modelQuiz (gemini w)
    end
  else None.

Definition count_parameter (k : kind) (req : request) : option jsstring :=
  match k with Flashcards => maxCards req | Quiz => numQuestions req end.

Definition requested_count (k : kind) (req : request) : Z :=
  match k with
  | Flashcards => requested_maxCards req
  | Quiz => requested_numQuestions req
  end.

Section Generate.
Variable eng : Engine.
Variable w : World.

Definition ask (k : kind) : model -> Z -> jsstring -> M (list json) :=
  match k with Flashcards => ask_flashcards eng | Quiz => ask_quiz eng end.

Definition read (k : kind) : Z -> jsstring -> M (list json) :=
  match k with Flashcards => read_flashcards eng | Quiz => read_quiz eng end.

Definition generate (k : kind) : jsstring -> Z -> M (list json) :=
  match k with
  | Flashcards => generateFlashcardsAI eng w
  | Quiz => generateQuizAI eng w
  end.

Definition route (k : kind) : request -> list event * response :=
  match k with
  | Flashcards => api_generate eng w
  | Quiz => api_generate_quiz eng w
  end.

End Generate.

(** ** Example worlds *)

Module Examples.

(** No key: the handles are not set. *)
Definition no_gemini : Gemini :=
  {| genAI := false; modelFlashcard := None; modelQuiz := None |}.

(** A service whose model answers every prompt with [reply]. *)
Definition gemini_replying (reply : jsstring) : Gemini :=
  {| genAI := true;
     modelFlashcard := Some (fun _ => Reply reply);
     modelQuiz := Some (fun _ => Reply reply) |}.

(** A world with no document extractor and an unreachable network. *)
Definition world (g : Gemini) : World :=
  {| gemini := g;
     pdf := fun _ => None;
     mammoth_extractRawText := fun _ => None;
     axios_get := fun _ => inr (AxiosError (js "getaddrinfo ENOTFOUND") (Some (js "ENOTFOUND")) None true);
     cheerio_text := fun _ => Normal (fun _ => []) |}.

Definition offline : World := world no_gemini.
Definition replying (reply : jsstring) : World := world (gemini_replying reply).

(** Sixty-two characters. *)
Definition sentence : jsstring :=
  js "The mitochondria is the powerhouse of the cell, as they say.  ".

Definition movie_url : jsstring := js "http://example.com/movie.mp4?t=1".
Definition archive_url : jsstring := js "ftp://example.com/archive.zip".
Definition picture_url : jsstring := js "https://example.com/a/Photo.JPG".

(** A text of 25,001 characters. *)
Definition long_text : jsstring := repeat 97%N (Z.to_nat 25001).

Definition padded : jsstring := js "  The cell.  ".

Definition notes : uploaded_file :=
  {| originalname := js "notes.txt"; mimetype := text_plain;
     buffer := list_byte_of_string "Zellen: gr" ++ [xc3; xb6; xc3; x28; xff]%byte |}.

Definition json_upload : uploaded_file :=
  {| originalname := js "cards.json"; mimetype := js "application/json";
     buffer := list_byte_of_string "[]" |}.

(** The reply of the scenario of the specification. *)
Definition chatty_reply : jsstring :=
  js "Sure! Here you go: [{" ++ dq ++ js "question" ++ dq ++ js ":" ++ dq ++ js "Q" ++ dq
  ++ js "," ++ dq ++ js "options" ++ dq ++ js ":["
  ++ dq ++ js "A" ++ dq ++ js "," ++ dq ++ js "B" ++ dq ++ js ","
  ++ dq ++ js "C" ++ dq ++ js "," ++ dq ++ js "D" ++ dq ++ js "],"
  ++ dq ++ js "correctAnswerIndices" ++ dq ++ js ":[1]}] Hope that helps!".

Definition text_request (textData : jsstring) (count : option jsstring) : request :=
  {| inputType := Some (js "text"); textData := Some textData; urlData := None;
     maxCards := count; numQuestions := count; inputFile := None |}.

End Examples.

(** ** Vocabulary of the specification *)

(** A run that returns records returns at most [n] of them. *)
Definition returns_at_most (n : Z) (m : M (list json)) : Prop :=
  match snd m with
  | Normal records => Z.of_nat (List.length records) <= n
  | Throw _ => True
  end.

(** The calls to the model, to the parser and to the network in a trace. *)
Definition model_calls (trace : list event) : list event := filter is_model_call trace.
Definition parser_calls (trace : list event) : list event := filter is_json_parse trace.
Definition network_calls (trace : list event) : list event := filter is_http_get trace.

(** The character [c] occurs in [s] at index [i], for the first and for the
    last time. *)
Definition first_at (c : char) (s : jsstring) (i : Z) : Prop :=
  exists before after,
    s = before ++ c :: after /\ ~ In c before /\ i = JsString.length before.

Definition last_at (c : char) (s : jsstring) (i : Z) : Prop :=
  exists before after,
    s = before ++ c :: after /\ ~ In c after /\ i = JsString.length before.

Definition bracket_open : char := 91%N.
Definition bracket_close : char := 93%N.

(** Boundary extraction: the test on the two indices, and the text between
    the first opening and the last closing bracket, both included. *)
Definition bad_boundary (reply : jsstring) : bool :=
  (indexOf reply (js "[") =? -1) || (lastIndexOf reply (js "]") =? -1)
  || (lastIndexOf reply (js "]") <? indexOf reply (js "[")).

Definition bracketed (reply : jsstring) : jsstring :=
  substring reply (indexOf reply (js "[")) (lastIndexOf reply (js "]") + 1).

(** The line a run warns with when it cuts the text, if it does. *)
Definition truncation_warning (k : kind) (text : jsstring) : list event :=
  if MAX_TEXT_LENGTH <? JsString.length text then [Warn (truncation_line k)] else [].

(** What the validation of the quiz adds to the reading: a warning, or the
    exception of a property access. *)
Definition validation (eng : Engine) (items : list json) : list event * option exn :=
  match items with
  | [] => ([], None)
  | firstQuestion :: _ =>
      match structure_suspect eng firstQuestion with
      | Normal true => ([Warn structure_warning], None)
      | Normal false => ([], None)
      | Throw e => ([], Some e)
      end
  end.

(** The path of a URL as RFC 3986 delimits it: after the scheme and the
    authority, up to the query or the fragment. *)
Fixpoint take_until (stop : char -> bool) (s : jsstring) : jsstring :=
  match s with
  | [] => []
  | c :: rest => if stop c then [] else c :: take_until stop rest
  end.

Fixpoint drop_until (stop : char -> bool) (s : jsstring) : jsstring :=
  match s with
  | [] => []
  | c :: rest => if stop c then s else drop_until stop rest
  end.

Definition url_path (url : jsstring) : jsstring :=
  let i := indexOf url (js "://") in
  let after_scheme := if i =? -1 then url else skipn (Z.to_nat (i + 3)) url in
  let from_path :=
    drop_until (fun c => (c =? 47) || (c =? 63) || (c =? 35))%N after_scheme in
  take_until (fun c => (c =? 63) || (c =? 35))%N from_path.

(** A template embeds its argument: it is a fixed text, the argument, and
    a fixed text. *)
Definition embeds (template : jsstring -> jsstring) : Prop :=
  exists before after, forall t, template t = before ++ t ++ after.

(** The text a prompt carries: the first 25,000 characters of a longer text,
    the whole of any other. *)
Definition embedded (text : jsstring) : jsstring :=
  if MAX_TEXT_LENGTH <? JsString.length text
  then firstn (Z.to_nat MAX_TEXT_LENGTH) text
  else text.

(** The bytes a decoder state has read without output, at most. *)
Definition credit (st : utf8_state) : nat :=
  match st with Start => 0 | Pending _ _ _ _ => 1 end.

(** A request with another count parameter. *)
Definition with_count (k : kind) (req : request) (v : option jsstring) : request :=
  {| inputType := inputType req; textData := textData req; urlData := urlData req;
     maxCards := match k with Flashcards => v | Quiz => maxCards req end;
     numQuestions := match k with Flashcards => numQuestions req | Quiz => v end;
     inputFile := inputFile req |}.

(** The body of the answer of a route to the records of a generation. *)
Definition answer (k : kind) : list json -> response :=
  match k with Flashcards => Json_flashcards | Quiz => Json_quiz end.

(** The two stages of a route, one after the other. *)
Definition pipeline (eng : Engine) (w : World) (k : kind) (i : input) (count : Z)
  : M (list json) :=
  bind (extractText eng w i) (fun textContent => generate eng w k textContent count).

(** A text with no white space at either end and no two white-space
    characters in a row. *)
Fixpoint no_white_run (s : jsstring) : bool :=
  match s with
  | a :: (b :: _) as rest => negb (is_white_space a && is_white_space b) && no_white_run rest
  | _ => true
  end.

Definition tidy (s : jsstring) : Prop :=
  is_white_space (hd 0%N s) = false /\
  is_white_space (last s 0%N) = false /\
  no_white_run s = true.

(** Example worlds with a web server behind every URL. *)
Module Web.

Definition serving (r : axios_response) (texts : region -> jsstring) : World :=
  {| gemini := Examples.no_gemini;
     pdf := fun _ => None;
     mammoth_extractRawText := fun _ => None;
     axios_get := fun _ => inl r;
     cheerio_text := fun _ => Normal texts |}.

Definition no_text : region -> jsstring := fun _ => [].

Definition not_found : axios_response :=
  {| status := 404; content_type := Some (js "text/html"); data := DataString (js "Not found") |}.

Definition plain (body : jsstring) : axios_response :=
  {| status := 200; content_type := Some (js "Text/Plain; charset=utf-8");
     data := DataString body |}.

Definition page : axios_response :=
  {| status := 200; content_type := Some (js "text/HTML; charset=utf-8");
     data := DataString (js "<html><body><article> Cells 		divide. </article></body></html>") |}.

(** The texts a parser of pages finds in [page]: no [main], one article. *)
Definition page_texts (r : region) : jsstring :=
  match r with
  | Article | Body => [32; 67; 101; 108; 108; 115; 32; 9; 9; 100; 105; 118; 105; 100; 101; 46; 32]%N
  | _ => []
  end.

Definition url : jsstring := js "https://example.com/cells".

Definition url_request : request :=
  {| inputType := Some (js "url"); textData := None; urlData := Some url;
     maxCards := None; numQuestions := None; inputFile := None |}.

End Web.



(** An integer between 0 and 3. *)
Definition index_in_range (n : Z) : bool := (0 <=? n) && (n <=? 3).

(** * Properties *)

Unset Implicit Arguments.

(** ** The definitions at work *)

Example ex_js_umlaut : js "für" = [102; 252; 114]%N.
Proof. reflexivity. Qed.

Example ex_indexOf : indexOf (js "ab[c]d]") (js "[") = 2 /\
                     lastIndexOf (js "ab[c]d]") (js "]") = 6 /\
                     indexOf (js "abc") (js "[") = -1 /\
                     substring (js "ab[c]d]e") 2 7 = js "[c]d]".
Proof. repeat split; reflexivity. Qed.

Example ex_trim : trim (js "  a b  ") = js "a b" /\ of_Z 25 = js "25" /\ of_Z (-7) = js "-7".
Proof. repeat split; reflexivity. Qed.

Example ex_parseInt :
  parseInt (js " 12px") = Some 12 /\ parseInt (js "-0") = Some 0 /\
  parseInt (js "0x1F") = Some 31 /\ parseInt (js "abc") = None /\
  parseInt (js "undefined") = None /\ parseInt [] = None /\
  parseInt (js "+7.9") = Some 7 /\ parseInt (js "-") = None.
Proof. repeat split; reflexivity. Qed.

Example ex_parse_quiz :
  Reference.parse
    (js "[{" ++ dq ++ js "question" ++ dq ++ js ":" ++ dq ++ js "Q" ++ dq ++ js ","
        ++ dq ++ js "options" ++ dq ++ js ": [1, -2.50e1, true, null]} , []]")
  = inl (JArray [JObject [(js "question", JString (js "Q"));
                          (js "options", JArray [JInt 1; JNumber (-250) (-1); JBool true; JNull])];
                 JArray []]).
Proof. vm_compute. reflexivity. Qed.

Example ex_parse_reject :
  (forall v, Reference.parse (js "[1,]") <> inl v) /\
  (forall v, Reference.parse (js "[01]") <> inl v) /\
  (forall v, Reference.parse (js "[1] x") <> inl v) /\
  (forall v, Reference.parse [] <> inl v) /\
  Reference.parse (js "[null]") = inl (JArray [JNull]).
Proof. repeat split; try (intros v; vm_compute; discriminate); reflexivity. Qed.

Example ex_collapse :
  collapse_whitespace ([9; 97; 32; 32; 10; 98; 10; 99; 32; 32])%N = [9; 97; 32; 98; 10; 99; 32]%N.
Proof. reflexivity. Qed.

Example ex_valid_index :
  valid_index (JInt 3) = true /\ valid_index (JInt 4) = false /\
  valid_index (JInt (-1)) = false /\ valid_index (JNumber 25 (-1)) = true /\
  valid_index (JNumber 30000000000000000001 (-19)) = true /\
  valid_index (JNumber 3000000000000001 (-15)) = false /\
  valid_index (JString (js "1")) = false.
Proof. vm_compute. repeat split. Qed.

Example ex_generate_flashcards :
  generateFlashcardsAI Reference.engine
    (Examples.replying (js "Sure: [{" ++ dq ++ js "front" ++ dq ++ js ":1},2,3,4] bye"))
    Examples.sentence 1
  = ([ModelCall (flashcard_prompt 3 Examples.sentence);
      JsonParse (js "[{" ++ dq ++ js "front" ++ dq ++ js ":1},2,3,4]")],
     Normal [JObject [(js "front", JInt 1)]; JInt 2; JInt 3]).
Proof. vm_compute. reflexivity. Qed.

Example ex_route_quiz_short :
  api_generate_quiz Reference.engine (Examples.replying (js "[]"))
    (Examples.text_request (js "too short") None)
  = ([], Json_quiz []).
Proof. vm_compute. reflexivity. Qed.

Example ex_route_blank :
  api_generate Reference.engine Examples.offline
    (Examples.text_request (js "   ") None)
  = ([], Json_error 500 (js "Kein Text.")).
Proof. vm_compute. reflexivity. Qed.

Example ex_utf8_replacement :
  utf8_decode [xed; xa0; x80; x41; xf0; x9f; x98; x80; xe2; x82]%byte
  = [0xFFFD; 0xFFFD; 0xFFFD; 0x41; 0xD83D; 0xDE00; 0xFFFD]%N.
Proof. reflexivity. Qed.

(** The scenarios of the specification. *)

Example ex_scenario_three_cards :
  api_generate Reference.engine (Examples.replying (js "[1, 2, 3, 4, 5]"))
    (Examples.text_request (js "The mitochondria is the powerhouse of the cell.")
                           (Some (js "3")))
  = ([ModelCall (js "Erstelle Lernkarten (Flashcards)... Erstelle maximal 3 Lernkarten... Text: --- The mitochondria is the powerhouse of the cell. --- JSON-Array:");
      JsonParse (js "[1, 2, 3, 4, 5]")],
     Json_flashcards [JInt 1; JInt 2; JInt 3]).
Proof. vm_compute. reflexivity. Qed.

Example ex_scenario_movie :
  extractText Reference.engine Examples.offline (Url (Some (js "http://example.com/movie.mp4")))
  = ([], Normal (js "[Binärdatei (http://example.com/movie.mp4)]")).
Proof. vm_compute. reflexivity. Qed.

Example ex_scenario_json_upload :
  extractText Reference.engine Examples.offline (File (Some Examples.json_upload))
  = ([Warn (js "Unsupported file type: application/json")],
     Throw (Error (js "Nicht unterstützter Dateityp: application/json"))) /\
  upload_single (Some Examples.json_upload) = inr (js "Ungültiger Dateityp: application/json.").
Proof. split; vm_compute; reflexivity. Qed.

Example ex_scenario_chatty_reply :
  snd (generateQuizAI Reference.engine (Examples.replying Examples.chatty_reply)
                      Examples.sentence 5)
  = Normal [JObject [(js "question", JString (js "Q"));
                     (js "options", JArray [JString (js "A"); JString (js "B");
                                            JString (js "C"); JString (js "D")]);
                     (js "correctAnswerIndices", JArray [JInt 1])]] /\
  filter (fun e => match e with Warn _ => true | _ => false end)
         (fst (generateQuizAI Reference.engine (Examples.replying Examples.chatty_reply)
                              Examples.sentence 5)) = [].
Proof. split; vm_compute; reflexivity. Qed.

Example ex_quiz_warns :
  fst (read_quiz Reference.engine 5 (js "[{}]"))
  = [JsonParse (js "[{}]"); Warn structure_warning] /\
  snd (read_quiz Reference.engine 5 (js "[{}]")) = Normal [JObject []].
Proof. split; vm_compute; reflexivity. Qed.

(** ** Strings and arrays *)

Lemma substring_prefix (s : jsstring) (n : Z) :
  0 <= n -> substring s 0 n = firstn (Z.to_nat n) s.
Proof.
  intros Hn. unfold substring, JsString.length.
  set (len := Z.of_nat (List.length s)).
  assert (Hlen : 0 <= len) by (subst len; lia).
  replace (Z.min (Z.max 0 0) len) with 0 by lia.
  replace (Z.max n 0) with n by lia.
  replace (Z.min 0 (Z.min n len)) with 0 by lia.
  replace (Z.max 0 (Z.min n len) - 0) with (Z.min n len) by lia.
  simpl skipn.
  destruct (Z.le_gt_cases n len) as [Hle | Hgt].
  - now replace (Z.min n len) with n by lia.
  - replace (Z.min n len) with len by lia.
    subst len. rewrite Nat2Z.id.
    rewrite firstn_all. symmetry. apply firstn_all2. lia.
Qed.

Lemma substring_whole (s : jsstring) (n : Z) :
  JsString.length s <= n -> substring s 0 n = s.
Proof.
  intros Hle. unfold JsString.length in Hle.
  rewrite substring_prefix by lia. apply firstn_all2. lia.
Qed.

Lemma slice0_prefix {A} (a : list A) (n : Z) :
  0 <= n -> slice0 a n = firstn (Z.to_nat n) a.
Proof.
  intros Hn. unfold slice0.
  destruct (n <? 0) eqn:E; [lia|].
  destruct (Z.le_gt_cases n (Z.of_nat (List.length a))) as [Hle | Hgt].
  - now replace (Z.min n (Z.of_nat (List.length a))) with n by lia.
  - replace (Z.min n (Z.of_nat (List.length a))) with (Z.of_nat (List.length a)) by lia.
    rewrite Nat2Z.id, firstn_all. symmetry. apply firstn_all2. lia.
Qed.

Lemma slice0_length {A} (a : list A) (n : Z) :
  0 <= n -> Z.of_nat (List.length (slice0 a n)) <= n.
Proof.
  intros Hn. rewrite slice0_prefix by assumption.
  rewrite length_firstn. lia.
Qed.

Lemma startsWith_nil (s : jsstring) : startsWith s [] = true.
Proof. destruct s; reflexivity. Qed.

(** [indexOf] of one character is the index of its first occurrence. *)
Lemma indexOf_from_char (c : char) (s : jsstring) (i : Z) :
  (indexOf_from i s [c] = -1 /\ ~ In c s) \/
  (exists before after,
      s = before ++ c :: after /\ ~ In c before /\
      indexOf_from i s [c] = i + JsString.length before).
Proof.
  revert i. induction s as [|x rest IH]; intros i.
  - left. split; [reflexivity | intros []].
  - cbn [indexOf_from startsWith]. rewrite startsWith_nil, andb_true_r.
    destruct (N.eqb_spec c x) as [<- | Hneq].
    + right. exists [], rest. repeat split; [intros [] | cbn; lia].
    + destruct (IH (i + 1)) as [[Hnone Hnotin] | (before & after & -> & Hnotin & Hfound)].
      * left. split; [exact Hnone | intros [H | H]; [now subst | contradiction]].
      * right. exists (x :: before), after. repeat split.
        -- intros [H | H]; [now subst | contradiction].
        -- rewrite Hfound. unfold JsString.length. cbn [List.length]. lia.
Qed.

Lemma indexOf_char (c : char) (s : jsstring) :
  (indexOf s [c] = -1 /\ ~ In c s) \/ first_at c s (indexOf s [c]).
Proof.
  unfold indexOf, first_at.
  destruct (indexOf_from_char c s 0) as [H | (before & after & H1 & H2 & H3)];
    [now left | right]. exists before, after. rewrite H3. auto.
Qed.

(** [lastIndexOf] of one character is the index of its last occurrence. *)
Lemma lastIndexOf_from_char (c : char) (s : jsstring) (i found : Z) :
  (lastIndexOf_from i found s [c] = found /\ ~ In c s) \/
  (exists before after,
      s = before ++ c :: after /\ ~ In c after /\
      lastIndexOf_from i found s [c] = i + JsString.length before).
Proof.
  revert i found. induction s as [|x rest IH]; intros i found.
  - left. split; [reflexivity | intros []].
  - cbn [lastIndexOf_from startsWith]. rewrite startsWith_nil, andb_true_r.
    destruct (IH (i + 1) (if (c =? x)%N then i else found))
      as [[Hnone Hnotin] | (before & after & -> & Hnotin & Hfound)].
    + rewrite Hnone. destruct (N.eqb_spec c x) as [<- | Hneq].
      * right. exists [], rest. repeat split; [exact Hnotin | cbn; lia].
      * left. split; [reflexivity | intros [H | H]; [now subst | contradiction]].
    + right. exists (x :: before), after. repeat split; [exact Hnotin|].
      rewrite Hfound. unfold JsString.length. cbn [List.length]. lia.
Qed.

Lemma lastIndexOf_char (c : char) (s : jsstring) :
  (lastIndexOf s [c] = -1 /\ ~ In c s) \/ last_at c s (lastIndexOf s [c]).
Proof.
  unfold lastIndexOf, last_at.
  destruct (lastIndexOf_from_char c s 0 (-1)) as [H | (before & after & H1 & H2 & H3)];
    [now left | right]. exists before, after. rewrite H3. auto.
Qed.

(** The substring from an index to another, both included. *)
Lemma substring_inclusive (before inner after : jsstring) (a b : char) :
  substring (before ++ a :: inner ++ b :: after)
            (JsString.length before) (JsString.length (before ++ a :: inner) + 1)
  = a :: inner ++ [b].
Proof.
  unfold substring, JsString.length.
  rewrite !length_app. cbn [List.length]. rewrite !length_app. cbn [List.length].
  set (n := List.length before). set (k := List.length inner). set (r := List.length after).
  replace (Z.min (Z.max (Z.of_nat n) 0) (Z.of_nat (n + S (k + S r)))) with (Z.of_nat n) by lia.
  replace (Z.min (Z.max (Z.of_nat (n + S k) + 1) 0) (Z.of_nat (n + S (k + S r))))
    with (Z.of_nat (n + S k) + 1) by lia.
  replace (Z.min (Z.of_nat n) (Z.of_nat (n + S k) + 1)) with (Z.of_nat n) by lia.
  replace (Z.to_nat (Z.max (Z.of_nat n) (Z.of_nat (n + S k) + 1) - Z.of_nat n))
    with (S (S k)) by lia.
  rewrite Nat2Z.id. subst n k r.
  rewrite skipn_app, skipn_all, Nat.sub_diag. cbn [app skipn].
  rewrite firstn_cons. f_equal. change (b :: after) with ([b] ++ after). rewrite app_assoc.
  rewrite firstn_app.
  replace (S (List.length inner) - List.length (inner ++ [b]))%nat with 0%nat
    by (rewrite length_app; cbn [List.length]; lia).
  rewrite firstn_all2 by (rewrite length_app; cbn [List.length]; lia).
  cbn [firstn]. now rewrite app_nil_r.
Qed.

(** ** Counts *)

Lemma clamp_range (k : kind) (count : Z) : 3 <= clamp k count <= maximum_count k.
Proof. destruct k; unfold clamp, numCards, numberOfQuestions, maximum_count; lia. Qed.

Lemma clamp_idempotent (k : kind) (count : Z) : clamp k (clamp k count) = clamp k count.
Proof. destruct k; unfold clamp, numCards, numberOfQuestions; lia. Qed.

(** ** The shape of a generation *)

Section Shape.
Variable eng : Engine.
Variable w : World.

Lemma unreadable_cons (k : kind) : exists c rest, unreadable k = c :: rest.
Proof. destruct k; vm_compute; eauto. Qed.

Lemma or_else_unreadable (k : kind) (detail fallback : jsstring) :
  or_else (unreadable k ++ detail) fallback = unreadable k ++ detail.
Proof. destruct (unreadable_cons k) as (c & rest & ->). reflexivity. Qed.

(** A generation is two guards, the warning of a cut and the request. *)
Lemma generate_unfold (k : kind) (text : jsstring) (count : Z) :
  generate eng w k text count =
  match model_of w k with
  | None => ([], Throw (Error (unavailable k)))
  | Some m =>
      if too_short (minimum_length k) text then ([], Normal (short_circuit k))
      else
        let request :=
          ask eng k m (clamp k count)
              (prompt k (clamp k count) (substring text 0 MAX_TEXT_LENGTH)) in
        (truncation_warning k text ++ fst request, snd request)
  end.
Proof.
  destruct k; unfold generate, generateFlashcardsAI, generateQuizAI, model_of,
    truncation_warning, ask, clamp, prompt, minimum_length;
    destruct (genAI (gemini w)); try reflexivity.
  - destruct (modelFlashcard (gemini w)) as [m|]; [|reflexivity].
    destruct (too_short 10 text); [reflexivity|].
    destruct (MAX_TEXT_LENGTH <? JsString.length text);
      unfold bind, emit, ret;
      destruct (ask_flashcards eng m _ _) as [t c]; reflexivity.
  - destruct (modelQuiz (gemini w)) as [m|]; [|reflexivity].
    destruct (too_short 50 text); [reflexivity|].
    destruct (MAX_TEXT_LENGTH <? JsString.length text);
      unfold bind, emit, ret;
      destruct (ask_quiz eng m _ _) as [t c]; reflexivity.
Qed.

(** The reading of a reply, case by case. *)
Lemma read_flashcards_unfold (n : Z) (reply : jsstring) :
  read_flashcards eng n reply =
  if bad_boundary reply
  then ([], Throw (Error (unreadable Flashcards ++ no_array Flashcards)))
  else ([JsonParse (bracketed reply)],
        match JSON_parse eng (bracketed reply) with
        | inl (JArray items) => Normal (slice0 items n)
        | inl _ => Throw (Error (unreadable Flashcards
                                  ++ js "KI-Antwort (Flashcards) kein Array."))
        | inr msg => Throw (Error (unreadable Flashcards ++ msg))
        end).
Proof.
  unfold read_flashcards, bad_boundary, bracketed, parse.
  destruct (_ || _ || _); [reflexivity|].
  destruct (JSON_parse eng _) as [[]|]; reflexivity.
Qed.

Lemma read_quiz_unfold (n : Z) (reply : jsstring) :
  read_quiz eng n reply =
  if bad_boundary reply
  then ([], Throw (Error (unreadable Quiz ++ no_array Quiz)))
  else match JSON_parse eng (bracketed reply) with
       | inl (JArray items) =>
           (JsonParse (bracketed reply) :: fst (validation eng items),
            match snd (validation eng items) with
            | None => Normal (slice0 items n)
            | Some e => Throw (Error (unreadable Quiz ++ message e))
            end)
       | inl _ => ([JsonParse (bracketed reply)],
                   Throw (Error (unreadable Quiz
                                   ++ js "AI quiz response was not a valid JSON array.")))
       | inr msg => ([JsonParse (bracketed reply)], Throw (Error (unreadable Quiz ++ msg)))
       end.
Proof.
  unfold read_quiz, bad_boundary, bracketed, parse, validation.
  destruct (_ || _ || _); [reflexivity|].
  destruct (JSON_parse eng _) as [[| | | |items|]|]; try reflexivity.
  destruct items as [|firstQuestion rest]; [reflexivity|].
  cbv beta iota delta [try_catch bind emit ret lift throw].
  destruct (structure_suspect eng firstQuestion) as [[]|]; reflexivity.
Qed.

End Shape.

Section Request.
Variable eng : Engine.

(** Runs a request up to the answer [Hm] of the model. *)
Ltac run_request k Hm :=
  destruct k; unfold ask, ask_flashcards, ask_quiz, generateContent;
  cbv beta iota delta [try_catch bind emit ret lift throw quiz_error];
  rewrite Hm; simpl.

(** The detail of an unreadable reply, when the reading throws. *)
Lemma read_throws (k : kind) (n : Z) (reply : jsstring) (e : exn) :
  snd (read eng k n reply) = Throw e ->
  exists detail, e = Error (unreadable k ++ detail).
Proof.
  destruct k; unfold read.
  - rewrite read_flashcards_unfold.
    destruct (bad_boundary reply); [|destruct (JSON_parse eng _) as [[]|]];
      simpl; intros H; inversion H; eauto.
  - rewrite read_quiz_unfold.
    destruct (bad_boundary reply);
      [|destruct (JSON_parse eng _) as [[| | | |items|]|];
        try destruct (snd (validation eng items))];
      simpl; intros H; inversion H; eauto.
Qed.

(** A request whose model replies is the call and the reading of the
    reply: the outer [catch] hands an unreadable reply on as it is. *)
Lemma ask_reply (k : kind) (m : model) (n : Z) (p reply : jsstring) :
  m p = Reply reply ->
  ask eng k m n p = (ModelCall p :: fst (read eng k n reply), snd (read eng k n reply)).
Proof.
  intros Hreply.
  pose proof (read_throws k n reply) as Hthrow.
  destruct k; unfold ask, ask_flashcards, ask_quiz, generateContent, read in *;
    cbv beta iota delta [try_catch bind emit ret lift throw];
    rewrite Hreply.
  - destruct (read_flashcards eng n reply) as [t [l|e]]; [reflexivity|].
    destruct (Hthrow e eq_refl) as [detail ->].
    cbv beta iota delta [message].
    rewrite (or_else_unreadable Flashcards), app_nil_r. reflexivity.
  - destruct (read_quiz eng n reply) as [t [l|e]]; [reflexivity|].
    destruct (Hthrow e eq_refl) as [detail ->].
    cbv beta iota zeta delta [quiz_error message throw].
    rewrite (or_else_unreadable Quiz), app_nil_r. reflexivity.
Qed.

(** Every request starts with its one call to the model. *)
Lemma ask_calls (k : kind) (m : model) (n : Z) (p : jsstring) :
  exists rest, fst (ask eng k m n p) = ModelCall p :: rest /\ model_calls rest = [].
Proof.
  destruct (m p) as [msg st | b f | reply] eqn:Hm.
  - run_request k Hm; eauto.
  - run_request k Hm; eauto.
  - rewrite (ask_reply k m n p reply Hm). simpl. eexists; split; [reflexivity|].
    destruct k; unfold read.
    + rewrite read_flashcards_unfold.
      destruct (bad_boundary reply); reflexivity.
    + rewrite read_quiz_unfold.
      destruct (bad_boundary reply); [reflexivity|].
      destruct (JSON_parse eng _) as [[| | | |items|]|]; try reflexivity.
      unfold validation. destruct items as [|q rest]; [reflexivity|].
      destruct (structure_suspect eng q) as [[]|]; reflexivity.
Qed.

(** A request that returns records returns a prefix of the array the
    parser read between the brackets of the reply. *)
Lemma ask_returns (k : kind) (m : model) (n : Z) (p : jsstring) (records : list json) :
  snd (ask eng k m n p) = Normal records ->
  exists reply items,
    m p = Reply reply /\ bad_boundary reply = false /\
    JSON_parse eng (bracketed reply) = inl (JArray items) /\
    records = slice0 items n.
Proof.
  destruct (m p) as [msg st | b f | reply] eqn:Hm.
  - run_request k Hm; discriminate.
  - run_request k Hm; discriminate.
  - rewrite (ask_reply k m n p reply Hm). simpl. intros H.
    exists reply. destruct k; unfold read in H.
    + rewrite read_flashcards_unfold in H.
      destruct (bad_boundary reply); [discriminate|].
      destruct (JSON_parse eng _) as [[| | | |items|]|]; try discriminate.
      exists items. simpl in H. inversion H. auto.
    + rewrite read_quiz_unfold in H.
      destruct (bad_boundary reply); [discriminate|].
      destruct (JSON_parse eng _) as [[| | | |items|]|]; try discriminate.
      exists items. simpl in H.
      destruct (snd (validation eng items)); [discriminate|].
      inversion H. auto.
Qed.

End Request.

(** ** The claims of the specification *)

Lemma model_calls_generate (eng : Engine) (w : World) (k : kind) (text : jsstring) (count : Z) :
  model_calls (fst (generate eng w k text count)) = [] \/
  model_calls (fst (generate eng w k text count)) =
    [ModelCall (prompt k (clamp k count) (substring text 0 MAX_TEXT_LENGTH))].
Proof.
  rewrite generate_unfold.
  destruct (model_of w k) as [m|]; [|now left].
  destruct (too_short (minimum_length k) text); [now left|].
  right. cbv zeta. unfold fst at 1.
  destruct (ask_calls eng k m (clamp k count)
              (prompt k (clamp k count) (substring text 0 MAX_TEXT_LENGTH)))
    as (rest & -> & Hrest).
  unfold model_calls in *. rewrite filter_app. simpl. rewrite Hrest.
  unfold truncation_warning. destruct (_ <? _); reflexivity.
Qed.

(** C1.  Whatever count is requested, a generation works with
    [max 3 (min limit count)], where the limit is 25 for flashcards and 15
    for a quiz; that count lies between 3 and the limit; it is the one the
    prompt states; a request for [count] is served exactly as the request
    for the clamped count, so none is refused for being out of range; and
    a run that returns records returns at most the clamped count. *)
Theorem C1_count_is_clamped (eng : Engine) (w : World) (k : kind)
        (text : jsstring) (count : Z) :
  clamp k count = Z.max 3 (Z.min (maximum_count k) count) /\
  3 <= clamp k count <= maximum_count k /\
  generate eng w k text count = generate eng w k text (clamp k count) /\
  (model_calls (fst (generate eng w k text count)) = [] \/
   model_calls (fst (generate eng w k text count)) =
     [ModelCall (prompt k (clamp k count) (substring text 0 MAX_TEXT_LENGTH))]) /\
  returns_at_most (clamp k count) (generate eng w k text count).
Proof.
  split; [destruct k; reflexivity|].
  split; [apply clamp_range|].
  split; [rewrite !generate_unfold, clamp_idempotent; reflexivity|].
  split; [apply model_calls_generate|].
  pose proof (clamp_range k count) as Hrange.
  rewrite generate_unfold. unfold returns_at_most.
  destruct (model_of w k) as [m|]; [|exact I].
  destruct (too_short (minimum_length k) text).
  - destruct k; cbn in *; unfold numCards, numberOfQuestions in *; lia.
  - cbv zeta. unfold snd at 1.
    destruct (snd (ask eng k m _ _)) as [records|e] eqn:Hask; [|exact I].
    apply ask_returns in Hask. destruct Hask as (reply & items & _ & _ & _ & ->).
    apply slice0_length. lia.
Qed.

(** A generation that reaches the model and gets a reply is the warning of
    a cut, the call, and the reading of the reply. *)
Lemma generate_reply (eng : Engine) (w : World) (k : kind) (text : jsstring)
      (count : Z) (m : model) (reply : jsstring) :
  model_of w k = Some m ->
  too_short (minimum_length k) text = false ->
  m (prompt k (clamp k count) (substring text 0 MAX_TEXT_LENGTH)) = Reply reply ->
  generate eng w k text count =
  (truncation_warning k text
     ++ ModelCall (prompt k (clamp k count) (substring text 0 MAX_TEXT_LENGTH))
     :: fst (read eng k (clamp k count) reply),
   snd (read eng k (clamp k count) reply)).
Proof.
  intros Hm Hlong Hreply.
  rewrite generate_unfold, Hm, Hlong. cbv zeta.
  rewrite (ask_reply eng k m _ _ reply Hreply). reflexivity.
Qed.

Lemma parser_calls_warning (k : kind) (text : jsstring) (p : jsstring) (rest : list event) :
  parser_calls (truncation_warning k text ++ ModelCall p :: rest) = parser_calls rest.
Proof.
  unfold parser_calls, truncation_warning. rewrite filter_app.
  destruct (_ <? _); reflexivity.
Qed.

(** With both brackets in order, the reply is a text without an opening
    bracket, the bracketed text, and a text without a closing bracket. *)
Lemma boundary_split (reply : jsstring) :
  bad_boundary reply = false ->
  exists before inner after,
    reply = before ++ bracket_open :: inner ++ bracket_close :: after /\
    ~ In bracket_open before /\ ~ In bracket_close after /\
    bracketed reply = bracket_open :: inner ++ [bracket_close].
Proof.
  unfold bad_boundary, bracketed.
  change (js "[") with [bracket_open]. change (js "]") with [bracket_close].
  intros Hgood. apply orb_false_elim in Hgood. destruct Hgood as [Hgood Horder].
  apply orb_false_elim in Hgood. destruct Hgood as [Hfirst Hlast].
  apply Z.eqb_neq in Hfirst, Hlast. apply Z.ltb_ge in Horder.
  destruct (indexOf_char bracket_open reply)
    as [[Hnone _] | (b1 & a1 & Hsplit1 & Hnot1 & Hat1)]; [contradiction|].
  destruct (lastIndexOf_char bracket_close reply)
    as [[Hnone _] | (b2 & a2 & Hsplit2 & Hnot2 & Hat2)]; [contradiction|].
  rewrite Hat1, Hat2 in *. clear Hfirst Hlast.
  assert (Hsame : b1 ++ bracket_open :: a1 = b2 ++ bracket_close :: a2) by congruence.
  apply app_eq_app in Hsame.
  destruct Hsame as [l [[Hb Ha] | [Hb Ha]]]; destruct l as [|x l]; try discriminate.
  - exfalso. subst b1. unfold JsString.length in Horder. rewrite length_app in Horder.
    cbn [List.length] in Horder. lia.
  - inversion Ha. subst x a1 b2. exists b1, l, a2.
    repeat split; [exact Hsplit1 | exact Hnot1 | exact Hnot2 |].
    rewrite Hsplit1. apply substring_inclusive.
Qed.

(** C2.  When the model has replied with a text, a generation takes the
    index of the first opening and of the last closing square bracket of
    it.  If one is missing, or the last closing bracket comes before the
    first opening one, the generation fails with the error of an
    unreadable reply that names the missing array (no other exception
    leaves it) and the parser is not called; otherwise the parser is called
    once, on the text from the one bracket to the other, both included. *)
Theorem C2_boundary_extraction (eng : Engine) (w : World) (k : kind)
        (text : jsstring) (count : Z) (m : model) (reply : jsstring) :
  model_of w k = Some m ->
  too_short (minimum_length k) text = false ->
  m (prompt k (clamp k count) (substring text 0 MAX_TEXT_LENGTH)) = Reply reply ->
  let startIndex := indexOf reply (js "[") in
  let endIndex := lastIndexOf reply (js "]") in
  (startIndex = -1 /\ ~ In bracket_open reply \/ first_at bracket_open reply startIndex) /\
  (endIndex = -1 /\ ~ In bracket_close reply \/ last_at bracket_close reply endIndex) /\
  if (startIndex =? -1) || (endIndex =? -1) || (endIndex <? startIndex)
  then snd (generate eng w k text count) = Throw (Error (unreadable k ++ no_array k)) /\
       parser_calls (fst (generate eng w k text count)) = []
  else parser_calls (fst (generate eng w k text count))
       = [JsonParse (substring reply startIndex (endIndex + 1))] /\
       exists before inner after,
         reply = before ++ bracket_open :: inner ++ bracket_close :: after /\
         ~ In bracket_open before /\ ~ In bracket_close after /\
         substring reply startIndex (endIndex + 1) = bracket_open :: inner ++ [bracket_close].
Proof.
  intros Hm Hlong Hreply startIndex endIndex.
  split; [apply (indexOf_char bracket_open)|].
  split; [apply (lastIndexOf_char bracket_close)|].
  rewrite (generate_reply eng w k text count m reply Hm Hlong Hreply).
  cbn [fst snd]. rewrite !parser_calls_warning.
  subst startIndex endIndex.
  change ((indexOf reply (js "[") =? -1) || (lastIndexOf reply (js "]") =? -1)
          || (lastIndexOf reply (js "]") <? indexOf reply (js "[")))
    with (bad_boundary reply).
  change (substring reply (indexOf reply (js "[")) (lastIndexOf reply (js "]") + 1))
    with (bracketed reply).
  pose proof (boundary_split reply) as Hsplit.
  destruct k; unfold read.
  - rewrite read_flashcards_unfold.
    destruct (bad_boundary reply); split; auto.
  - rewrite read_quiz_unfold.
    destruct (bad_boundary reply); [split; reflexivity|].
    split; [|auto].
    destruct (JSON_parse eng _) as [[| | | |items|]|]; try reflexivity.
    unfold validation. destruct items as [|q rest]; [reflexivity|].
    destruct (structure_suspect eng q) as [[]|]; reflexivity.
Qed.

Lemma C2_boundary_extraction_witness :
  snd (generate Reference.engine (Examples.replying (js "Here ] you [ go")) Flashcards
                Examples.sentence 5)
  = Throw (Error (unreadable Flashcards ++ no_array Flashcards)) /\
  parser_calls (fst (generate Reference.engine (Examples.replying (js "Here ] you [ go"))
                              Flashcards Examples.sentence 5)) = [].
Proof.
  exact (proj2 (proj2
           (C2_boundary_extraction Reference.engine (Examples.replying (js "Here ] you [ go"))
              Flashcards Examples.sentence 5 (fun _ => Reply (js "Here ] you [ go"))
              (js "Here ] you [ go") eq_refl eq_refl eq_refl))).
Defined.

Lemma too_short_trim (minimum : Z) (text : jsstring) :
  0 < minimum -> JsString.length (trim text) < minimum -> too_short minimum text = true.
Proof.
  intros Hmin Hlen. unfold too_short. destruct text; [reflexivity|].
  now apply Z.ltb_lt.
Qed.

(** C3, against the claim as it stands: without a configured service the
    empty text is answered by the error of the missing service, for
    flashcards and for a quiz, not by the short-circuit. *)
Lemma C3_counterexample_service_not_configured :
  JsString.length (trim []) < minimum_length Flashcards /\
  generate Reference.engine Examples.offline Flashcards [] 15
  = ([], Throw (Error (js "KI-Dienst (Flashcard) nicht verfügbar."))) /\
  generate Reference.engine Examples.offline Quiz [] 5
  = ([], Throw (Error (js "KI-Dienst (Quiz) ist nicht verfügbar (API-Schlüssel fehlt?)."))).
Proof. split; [reflexivity | split; reflexivity]. Qed.

(** C3, amended.  When the service is configured, a text whose trimmed
    length is below the minimum of the kind (10 for flashcards, 50 for a
    quiz) ends the generation at once and normally, with an empty trace (so
    with no call to the model): flashcards return the one placeholder
    card, a quiz returns no question. *)
Theorem C3_short_text_short_circuits (eng : Engine) (w : World) (k : kind)
        (text : jsstring) (count : Z) (m : model) :
  model_of w k = Some m ->
  JsString.length (trim text) < minimum_length k ->
  generate eng w k text count
  = ([], Normal match k with Flashcards => [placeholder_card] | Quiz => [] end).
Proof.
  intros Hm Hshort.
  rewrite generate_unfold, Hm, too_short_trim; [destruct k; reflexivity| |assumption].
  destruct k; reflexivity.
Qed.

Lemma C3_short_text_short_circuits_witness :
  generate Reference.engine (Examples.replying (js "[]")) Quiz (js "  Mitochondria.  ") 5
  = ([], Normal []).
Proof.
  apply (C3_short_text_short_circuits Reference.engine (Examples.replying (js "[]")) Quiz
           (js "  Mitochondria.  ") 5 (fun _ => Reply (js "[]"))).
  - reflexivity.
  - vm_compute. reflexivity.
Defined.

(** ** Text extraction *)

(** C4, against the claim as it stands.  The path of the first URL ends in
    [.mp4], but the URL itself goes on with a query: the pattern does not
    match and the program fetches it.  The path of the second ends in
    [.zip], but the URL does not begin with [http]: the program rejects it
    as invalid before it looks at the extension. *)
Lemma C4_counterexample_query_and_scheme :
  url_path Examples.movie_url = js "/movie.mp4" /\
  is_binary_url (url_path Examples.movie_url) = true /\
  network_calls (fst (extractText Reference.engine Examples.offline
                        (Url (Some Examples.movie_url))))
  = [HttpGet Examples.movie_url] /\
  url_path Examples.archive_url = js "/archive.zip" /\
  is_binary_url (url_path Examples.archive_url) = true /\
  extractText Reference.engine Examples.offline (Url (Some Examples.archive_url))
  = ([], Throw (Error (js "URL Fehler: Ungültige URL."))).
Proof. repeat split; vm_compute; reflexivity. Qed.

(** C4, amended.  For every URL that begins with [http] and whose whole
    text ends, in either case of the letters, in a dot and one of jpg,
    jpeg, png, gif, mp3, mp4, zip, exe, dmg, the extraction ends normally
    with an empty trace (so with no network call) and returns the
    placeholder that holds the URL between its brackets. *)
Theorem C4_binary_url_is_not_fetched (eng : Engine) (w : World) (url : jsstring) :
  startsWith url (js "http") = true ->
  is_binary_url url = true ->
  extractText eng w (Url (Some url))
  = ([], Normal (js "[Binärdatei (" ++ url ++ js ")]")).
Proof.
  intros Hhttp Hbinary. unfold extractText, extract_url.
  rewrite Hhttp, Hbinary.
  destruct url as [|c rest]; [discriminate|]. reflexivity.
Qed.

Lemma C4_binary_url_is_not_fetched_witness :
  extractText Reference.engine Examples.offline (Url (Some Examples.picture_url))
  = ([], Normal (js "[Binärdatei (" ++ Examples.picture_url ++ js ")]")).
Proof.
  apply (C4_binary_url_is_not_fetched Reference.engine Examples.offline Examples.picture_url);
    vm_compute; reflexivity.
Defined.

(** ** Prompts *)

Lemma embeds_here (after : jsstring) : embeds (fun t => t ++ after).
Proof. exists [], after. reflexivity. Qed.

Lemma embeds_app (segment : jsstring) (template : jsstring -> jsstring) :
  embeds template -> embeds (fun t => segment ++ template t).
Proof.
  intros (before & after & H). exists (segment ++ before), after.
  intros t. rewrite H, app_assoc. reflexivity.
Qed.

Lemma prompt_embeds (k : kind) (n : Z) : embeds (prompt k n).
Proof.
  destruct k; unfold prompt, flashcard_prompt, quiz_prompt;
    repeat apply embeds_app; apply embeds_here.
Qed.

Lemma substring_embedded (text : jsstring) :
  substring text 0 MAX_TEXT_LENGTH = embedded text.
Proof.
  unfold embedded. destruct (MAX_TEXT_LENGTH <? JsString.length text) eqn:E.
  - apply substring_prefix. unfold MAX_TEXT_LENGTH. lia.
  - apply substring_whole. apply Z.ltb_ge in E. exact E.
Qed.

Lemma embedded_length (text : jsstring) :
  MAX_TEXT_LENGTH < JsString.length text ->
  JsString.length (embedded text) = MAX_TEXT_LENGTH.
Proof.
  intros Hlong. unfold embedded.
  destruct (Z.ltb_spec MAX_TEXT_LENGTH (JsString.length text)) as [_|Hle]; [|lia].
  unfold JsString.length in *. rewrite length_firstn.
  unfold MAX_TEXT_LENGTH in *. lia.
Qed.

(** C5.  When a generation reaches the model, the prompt it sends is the
    template of the kind around the text, and the text it carries is the
    first 25,000 characters of a longer text (exactly 25,000 of them) and
    the whole of a text of at most 25,000.  The cut changes nothing else:
    the run is the request with that prompt, and a cut only adds one
    warning line before it; the request begins with its one call to the
    model. *)
Theorem C5_prompt_carries_first_25000 (eng : Engine) (w : World) (k : kind)
        (text : jsstring) (count : Z) (m : model) :
  model_of w k = Some m ->
  too_short (minimum_length k) text = false ->
  let p := prompt k (clamp k count) (embedded text) in
  embeds (prompt k (clamp k count)) /\
  (MAX_TEXT_LENGTH < JsString.length text ->
   embedded text = firstn (Z.to_nat MAX_TEXT_LENGTH) text /\
   JsString.length (embedded text) = MAX_TEXT_LENGTH) /\
  (JsString.length text <= MAX_TEXT_LENGTH -> embedded text = text) /\
  generate eng w k text count
  = ((if MAX_TEXT_LENGTH <? JsString.length text then [Warn (truncation_line k)] else [])
       ++ fst (ask eng k m (clamp k count) p),
     snd (ask eng k m (clamp k count) p)) /\
  exists rest,
    fst (ask eng k m (clamp k count) p) = ModelCall p :: rest /\ model_calls rest = [].
Proof.
  intros Hm Hlong p.
  split; [apply prompt_embeds|].
  split; [intros H; split; [|now apply embedded_length];
          unfold embedded; apply Z.ltb_lt in H; now rewrite H|].
  split; [intros H; unfold embedded; apply Z.ltb_ge in H; now rewrite H|].
  split; [|apply ask_calls].
  rewrite generate_unfold, Hm, Hlong, substring_embedded. reflexivity.
Qed.

Lemma C5_prompt_carries_first_25000_witness :
  MAX_TEXT_LENGTH < JsString.length Examples.long_text /\
  generate Reference.engine (Examples.replying (js "[]")) Flashcards Examples.long_text 5
  = ([Warn (js "Text truncated.")]
       ++ fst (ask Reference.engine Flashcards (fun _ => Reply (js "[]")) 5
                   (flashcard_prompt 5 (embedded Examples.long_text))),
     snd (ask Reference.engine Flashcards (fun _ => Reply (js "[]")) 5
              (flashcard_prompt 5 (embedded Examples.long_text)))).
Proof.
  split; [vm_compute; reflexivity|].
  assert (Hshort : too_short (minimum_length Flashcards) Examples.long_text = false)
    by (vm_compute; reflexivity).
  exact (proj1 (proj2 (proj2 (proj2
           (C5_prompt_carries_first_25000 Reference.engine (Examples.replying (js "[]"))
              Flashcards Examples.long_text 5 (fun _ => Reply (js "[]")) eq_refl Hshort))))).
Defined.

(** ** Truncation to the count *)

(** C6, against the claim as it stands: one card is requested, the model
    sends four records, and three are returned. *)
Lemma C6_counterexample_more_than_requested :
  snd (generate Reference.engine (Examples.replying (js "[1, 2, 3, 4]")) Flashcards
                Examples.sentence 1)
  = Normal [JInt 1; JInt 2; JInt 3] /\
  ~ returns_at_most 1
      (generate Reference.engine (Examples.replying (js "[1, 2, 3, 4]")) Flashcards
                Examples.sentence 1).
Proof.
  split; [vm_compute; reflexivity|].
  vm_compute. intros H. apply H. reflexivity.
Qed.

(** C6, amended.  When the parser has read an array between the brackets
    of the reply and the generation returns, it returns the prefix of that
    array of the clamped count [max 3 (min limit count)], or all of it if
    it is shorter: never more records than the clamped count, which is the
    requested count whenever that lies between 3 and the limit. *)
Theorem C6_returns_prefix_of_clamped_count (eng : Engine) (w : World) (k : kind)
        (text : jsstring) (count : Z) (m : model) (reply : jsstring)
        (items records : list json) :
  model_of w k = Some m ->
  too_short (minimum_length k) text = false ->
  m (prompt k (clamp k count) (substring text 0 MAX_TEXT_LENGTH)) = Reply reply ->
  JSON_parse eng (bracketed reply) = inl (JArray items) ->
  snd (generate eng w k text count) = Normal records ->
  records = firstn (Z.to_nat (clamp k count)) items /\
  Z.of_nat (List.length records) <= clamp k count /\
  (3 <= count <= maximum_count k -> Z.of_nat (List.length records) <= count).
Proof.
  intros Hm Hlong Hreply Hparse Hreturn.
  pose proof (clamp_range k count) as Hrange.
  rewrite generate_unfold, Hm, Hlong in Hreturn. cbn [snd] in Hreturn.
  apply ask_returns in Hreturn.
  destruct Hreturn as (reply' & items' & Hreply' & _ & Hparse' & ->).
  rewrite Hreply in Hreply'. inversion Hreply'. subst reply'.
  rewrite Hparse in Hparse'. inversion Hparse'. subst items'.
  rewrite slice0_prefix by lia.
  split; [reflexivity|].
  assert (Hlen : Z.of_nat (List.length (firstn (Z.to_nat (clamp k count)) items))
                 <= clamp k count) by (rewrite length_firstn; lia).
  split; [exact Hlen|].
  intros Hin. assert (Hsame : clamp k count = count)
    by (destruct k; unfold clamp, numCards, numberOfQuestions, maximum_count in *; lia).
  lia.
Qed.

Lemma C6_returns_prefix_of_clamped_count_witness :
  [JInt 1; JInt 2; JInt 3] = firstn (Z.to_nat (clamp Quiz 2)) [JInt 1; JInt 2; JInt 3; JInt 4] /\
  Z.of_nat (List.length [JInt 1; JInt 2; JInt 3]) <= clamp Quiz 2 /\
  (3 <= 2 <= maximum_count Quiz -> Z.of_nat (List.length [JInt 1; JInt 2; JInt 3]) <= 2).
Proof.
  apply (C6_returns_prefix_of_clamped_count Reference.engine
           (Examples.replying (js "[1, 2, 3, 4]")) Quiz Examples.sentence 2
           (fun _ => Reply (js "[1, 2, 3, 4]")) (js "[1, 2, 3, 4]")
           [JInt 1; JInt 2; JInt 3; JInt 4] [JInt 1; JInt 2; JInt 3]);
    vm_compute; reflexivity.
Defined.

(** ** Inline text *)

(** C7, against the claim as it stands: a text with spaces around it is
    accepted by the route and comes out of the extraction with its spaces,
    which is not its trimmed form. *)
Lemma C7_counterexample_text_is_not_trimmed :
  select_input (Examples.text_request Examples.padded None) None
  = Normal (Some (Text (Some Examples.padded))) /\
  extractText Reference.engine Examples.offline (Text (Some Examples.padded))
  = ([], Normal Examples.padded) /\
  trim Examples.padded = js "The cell." /\
  Examples.padded <> trim Examples.padded.
Proof.
  repeat split; try (vm_compute; reflexivity).
  vm_compute. discriminate.
Qed.

(** C7, amended.  For a request of type [text], the text is trimmed only
    to decide whether it is empty.  A missing text and a text that is empty
    after trimming are rejected by the error [Kein Text.], which the route
    answers with status 500 and no other effect; any other text is handed
    to the extraction, which returns it as it is, untrimmed, with no
    effect. *)
Theorem C7_inline_text_passes_unchanged (eng : Engine) (w : World) (k : kind)
        (req : request) (file : option uploaded_file) :
  inputType req = Some (js "text") ->
  upload_single (inputFile req) = inl file ->
  match textData req with
  | Some s =>
      if JsString.length (trim s) =? 0
      then select_input req file = Throw (Error (js "Kein Text.")) /\
           route eng w k req = ([], Json_error 500 (js "Kein Text."))
      else select_input req file = Normal (Some (Text (Some s))) /\
           extractText eng w (Text (Some s)) = ([], Normal s)
  | None => select_input req file = Throw (Error (js "Kein Text.")) /\
            route eng w k req = ([], Json_error 500 (js "Kein Text."))
  end.
Proof.
  intros Htype Hupload.
  assert (Hselect : select_input req file =
                    if blank (textData req) then Throw (Error (js "Kein Text."))
                    else Normal (Some (Text (textData req)))).
  { unfold select_input. rewrite Htype. reflexivity. }
  assert (Hroute : select_input req file = Throw (Error (js "Kein Text.")) ->
                   route eng w k req = ([], Json_error 500 (js "Kein Text."))).
  { intros H. destruct k; unfold route, api_generate, api_generate_quiz, serve;
      rewrite Hupload, H; reflexivity. }
  destruct (textData req) as [s|]; cbn [blank] in Hselect.
  - unfold JsString.length. destruct (trim s) as [|c rest]; cbn.
    + split; [exact Hselect | exact (Hroute Hselect)].
    + split; [exact Hselect | reflexivity].
  - split; [exact Hselect | exact (Hroute Hselect)].
Qed.

Lemma C7_inline_text_passes_unchanged_witness :
  select_input (Examples.text_request Examples.padded None) None
  = Normal (Some (Text (Some Examples.padded))) /\
  extractText Reference.engine Examples.offline (Text (Some Examples.padded))
  = ([], Normal Examples.padded).
Proof.
  exact (C7_inline_text_passes_unchanged Reference.engine Examples.offline Flashcards
           (Examples.text_request Examples.padded None) None eq_refl eq_refl).
Defined.

(** ** Validation of the records *)

(** Only [null] makes the validation throw. *)
Lemma structure_suspect_normal (eng : Engine) (q : json) :
  q <> JNull -> exists suspect, structure_suspect eng q = Normal suspect.
Proof.
  intros Hq. unfold structure_suspect.
  destruct q as [|b|mantissa exponent|s|items|members];
    try congruence; cbn [get]; try (cbn; eauto; fail).
  destruct (negb (is_string _)); eauto.
  destruct (lookup (js "options") members) as [[| | | |options|]|]; eauto.
  destruct (negb _); eauto.
  destruct (lookup (js "correctAnswerIndices") members) as [[| | | |indices|]|]; eauto.
Qed.

(** Where the records do pass through as they are: for flashcards always,
    for a quiz unless the first record is [null]. *)
Lemma records_pass_through (eng : Engine) (w : World) (k : kind) (text : jsstring)
      (count : Z) (m : model) (reply : jsstring) (items : list json) :
  model_of w k = Some m ->
  too_short (minimum_length k) text = false ->
  m (prompt k (clamp k count) (substring text 0 MAX_TEXT_LENGTH)) = Reply reply ->
  bad_boundary reply = false ->
  JSON_parse eng (bracketed reply) = inl (JArray items) ->
  (k = Quiz -> forall rest, items <> JNull :: rest) ->
  snd (generate eng w k text count) = Normal (firstn (Z.to_nat (clamp k count)) items).
Proof.
  intros Hm Hlong Hreply Hgood Hparse Hnull.
  pose proof (clamp_range k count) as Hrange.
  rewrite (generate_reply eng w k text count m reply Hm Hlong Hreply). cbn [snd].
  rewrite <- slice0_prefix by lia.
  destruct k; unfold read.
  - rewrite read_flashcards_unfold, Hgood, Hparse. reflexivity.
  - rewrite read_quiz_unfold, Hgood, Hparse. cbn [snd]. unfold validation.
    destruct items as [|q rest]; [reflexivity|].
    destruct (structure_suspect_normal eng q) as [suspect ->].
    + intros ->. now apply (Hnull eq_refl rest).
    + destruct suspect; reflexivity.
Qed.

(** C8, where the program departs from the claim.  The records of a parsed
    array are to pass through whatever their shape.  For a quiz whose first
    record is [null], the validation reads [question] of [null]: the
    [TypeError] is caught as if the reply could not be read, and the
    generation fails with nothing returned. *)
Theorem C8_quiz_fails_on_null_first_record (eng : Engine) (w : World)
        (text : jsstring) (count : Z) (m : model) (reply : jsstring) (rest : list json) :
  model_of w Quiz = Some m ->
  too_short (minimum_length Quiz) text = false ->
  m (prompt Quiz (clamp Quiz count) (substring text 0 MAX_TEXT_LENGTH)) = Reply reply ->
  bad_boundary reply = false ->
  JSON_parse eng (bracketed reply) = inl (JArray (JNull :: rest)) ->
  snd (generate eng w Quiz text count)
  = Throw (Error (js "Konnte das Quiz aus der KI-Antwort nicht korrekt extrahieren: "
                    ++ null_property_message eng (js "question"))).
Proof.
  intros Hm Hlong Hreply Hgood Hparse.
  rewrite (generate_reply eng w Quiz text count m reply Hm Hlong Hreply). cbn [snd].
  unfold read. rewrite read_quiz_unfold, Hgood, Hparse. reflexivity.
Qed.

Lemma C8_quiz_fails_on_null_first_record_witness :
  generate Reference.engine (Examples.replying (js "[null]")) Quiz Examples.sentence 5
  = ([ModelCall (quiz_prompt 5 Examples.sentence); JsonParse (js "[null]")],
     Throw (Error (js "Konnte das Quiz aus der KI-Antwort nicht korrekt extrahieren: Cannot read properties of null (reading 'question')"))) /\
  generate Reference.engine (Examples.replying (js "[null]")) Flashcards Examples.sentence 5
  = ([ModelCall (flashcard_prompt 5 Examples.sentence); JsonParse (js "[null]")],
     Normal [JNull]).
Proof.
  pose proof (C8_quiz_fails_on_null_first_record Reference.engine
                (Examples.replying (js "[null]")) Examples.sentence 5
                (fun _ => Reply (js "[null]")) (js "[null]") []
                eq_refl eq_refl eq_refl eq_refl eq_refl) as Hfails.
  split; [|vm_compute; reflexivity].
  destruct (generate Reference.engine (Examples.replying (js "[null]")) Quiz
                     Examples.sentence 5) as [trace result] eqn:Hrun.
  cbn [snd] in Hfails. rewrite Hfails.
  vm_compute in Hrun. inversion Hrun. vm_compute. reflexivity.
Defined.

(** ** Plain-text uploads *)

Lemma utf16_encode_length (cp : N) : (List.length (utf16_encode cp) <= 2)%nat.
Proof. unfold utf16_encode. destruct (_ <? _)%N; simpl; lia. Qed.

Lemma utf8_lead_length (b : N) :
  (List.length (fst (utf8_lead b)) + credit (snd (utf8_lead b)) <= 1)%nat.
Proof.
  unfold utf8_lead.
  destruct (_ <=? _)%N; [simpl; lia|].
  repeat (destruct (between _ _ b); [simpl; lia|]).
  simpl; lia.
Qed.

Lemma utf8_step_length (st : utf8_state) (b : N) :
  (List.length (fst (utf8_step st b)) + credit (snd (utf8_step st b)) <= 1 + credit st)%nat.
Proof.
  destruct st as [|cp needed lo hi]; cbn [utf8_step credit].
  - pose proof (utf8_lead_length b). lia.
  - destruct (between lo hi b).
    + destruct needed as [|[|n]]; cbn [fst snd credit];
        try (pose proof (utf16_encode_length (N.lor (N.shiftl cp 6) (N.land b 63))));
        simpl; lia.
    + pose proof (utf8_lead_length b) as H.
      destruct (utf8_lead b) as [out st']. cbn [fst snd] in *. simpl. lia.
Qed.

(** The decoder writes at most one code unit for each byte it reads. *)
Lemma utf8_decode_from_length (bytes : list byte) (st : utf8_state) :
  (List.length (utf8_decode_from st bytes) <= List.length bytes + credit st)%nat.
Proof.
  revert st. induction bytes as [|b rest IH]; intros st.
  - destruct st; simpl; lia.
  - cbn [utf8_decode_from].
    pose proof (utf8_step_length st (Byte.to_N b)) as Hstep.
    destruct (utf8_step st (Byte.to_N b)) as [out st']. cbn [fst snd] in Hstep.
    rewrite length_app. specialize (IH st'). cbn [List.length]. lia.
Qed.

Lemma utf8_decode_length (bytes : list byte) :
  JsString.length (utf8_decode bytes) <= Z.of_nat (List.length bytes).
Proof.
  unfold JsString.length, utf8_decode.
  pose proof (utf8_decode_from_length bytes Start). simpl in *. lia.
Qed.

Lemma upload_single_accepts (part : option uploaded_file) (f : uploaded_file) :
  upload_single part = inl (Some f) ->
  part = Some f /\ existsb (eqb (mimetype f)) allowedTypes = true /\ size f <= fileSize_limit.
Proof.
  unfold upload_single. destruct part as [f'|]; [|discriminate].
  destruct (existsb _ _) eqn:Htype; [|discriminate].
  destruct (Z.ltb_spec fileSize_limit (size f')) as [Hover|Hfits]; [discriminate|].
  intros Hsame. inversion Hsame. subst f'. auto.
Qed.

(** C9.  A file that the upload middleware lets through (an allowed media
    type, at most 10 MiB) and that is declared [text/plain] is always
    extracted: the conversion of its bytes does not throw, so the [catch]
    of that branch is never entered, and the result is the UTF-8 decoding
    of the bytes, with replacement characters for what is not UTF-8.  The
    runtime refuses to build a string only beyond its maximal string
    length, which no decoded upload reaches: the decoding has at most one
    code unit for each byte. *)
Theorem C9_plain_text_upload_always_decodes (eng : Engine) (w : World)
        (part : option uploaded_file) (f : uploaded_file) :
  fileSize_limit <= MAX_STRING_LENGTH eng ->
  upload_single part = inl (Some f) ->
  mimetype f = text_plain ->
  Buffer_toString eng (buffer f) = Normal (utf8_decode (buffer f)) /\
  extractText eng w (File (Some f)) = ([], Normal (utf8_decode (buffer f))).
Proof.
  intros Hmax Hupload Hmime.
  apply upload_single_accepts in Hupload. destruct Hupload as (_ & _ & Hsize).
  assert (Hdecode : Buffer_toString eng (buffer f) = Normal (utf8_decode (buffer f))).
  { unfold Buffer_toString.
    pose proof (utf8_decode_length (buffer f)) as Hlen. unfold size in Hsize.
    destruct (Z.ltb_spec (MAX_STRING_LENGTH eng) (JsString.length (utf8_decode (buffer f))));
      [lia | reflexivity]. }
  split; [exact Hdecode|].
  unfold extractText. rewrite Hmime.
  replace (eqb text_plain text_plain) with true by (vm_compute; reflexivity).
  rewrite Hdecode. reflexivity.
Qed.

Lemma C9_plain_text_upload_always_decodes_witness :
  Buffer_toString Reference.engine (buffer Examples.notes)
  = Normal (js "Zellen: gr" ++ [0xF6; 0xFFFD; 0x28; 0xFFFD]%N) /\
  extractText Reference.engine Examples.offline (File (Some Examples.notes))
  = ([], Normal (js "Zellen: gr" ++ [0xF6; 0xFFFD; 0x28; 0xFFFD]%N)).
Proof.
  apply (C9_plain_text_upload_always_decodes Reference.engine Examples.offline
           (Some Examples.notes) Examples.notes);
    vm_compute; try reflexivity; discriminate.
Defined.

(** ** The count parameter *)

(** C10.  When the count parameter of a request does not parse as an
    integer (an absent parameter among the cases) or parses to zero, the
    route works with the default of its kind, 15 cards or 5 questions, and
    not with the least count 3: the clamped count is the default, and the
    request is answered exactly as the one that states the default. *)
Theorem C10_default_count_on_falsy_parse (eng : Engine) (w : World) (k : kind)
        (req : request) :
  parseInt (show (count_parameter k req)) = None \/
  parseInt (show (count_parameter k req)) = Some 0 ->
  requested_count k req = default_count k /\
  clamp k (requested_count k req) = default_count k /\
  clamp k (requested_count k req) <> 3 /\
  route eng w k req = route eng w k (with_count k req (Some (of_Z (default_count k)))).
Proof.
  intros Hfalsy.
  assert (Hcount : requested_count k req = default_count k).
  { destruct k; unfold requested_count, requested_maxCards, requested_numQuestions,
      count_parameter in *; destruct Hfalsy as [-> | ->]; reflexivity. }
  rewrite Hcount.
  split; [reflexivity|]. split; [destruct k; reflexivity|].
  split; [destruct k; vm_compute; discriminate|].
  destruct k; unfold route, api_generate, api_generate_quiz, serve.
  - change (requested_maxCards req) with (requested_count Flashcards req). rewrite Hcount.
    reflexivity.
  - change (requested_numQuestions req) with (requested_count Quiz req). rewrite Hcount.
    reflexivity.
Qed.

Lemma C10_default_count_on_falsy_parse_witness :
  requested_count Flashcards (Examples.text_request Examples.sentence (Some (js "0"))) = 15 /\
  clamp Flashcards (requested_count Flashcards
                      (Examples.text_request Examples.sentence (Some (js "0")))) = 15.
Proof.
  pose proof (C10_default_count_on_falsy_parse Reference.engine Examples.offline Flashcards
                (Examples.text_request Examples.sentence (Some (js "0")))
                (or_intror eq_refl)) as (H1 & H2 & _).
  split; [exact H1 | exact H2].
Defined.

(** * Further properties of the code *)

(** ** How the stages fail *)

Lemma try_catch_throws {A} (m : M A) (handler : exn -> M A) (e : exn) :
  snd (try_catch m handler) = Throw e ->
  exists e', snd m = Throw e' /\ snd (handler e') = Throw e.
Proof.
  unfold try_catch. destruct m as [t [a|e']]; [discriminate|].
  destruct (handler e') as [t' c] eqn:Hh. cbn [snd]. intros ->.
  exists e'. rewrite Hh. auto.
Qed.

Lemma bind_throws {A B} (m : M A) (k : A -> M B) (e : exn) :
  snd (bind m k) = Throw e ->
  snd m = Throw e \/ exists a, snd m = Normal a /\ snd (k a) = Throw e.
Proof.
  unfold bind. destruct m as [t [a|e']]; cbn [snd].
  - destruct (k a) as [t' c] eqn:Hk. cbn [snd]. intros ->.
    right. exists a. rewrite Hk. auto.
  - intros H. inversion H. left. reflexivity.
Qed.

(** The [catch] of the URL branch always throws an [Error] whose message
    tells that a URL failed. *)
Lemma url_error_throws (error : exn) :
  exists msg, url_error error = ([], Throw (Error msg)) /\
              startsWith msg (js "URL ") = true.
Proof.
  unfold url_error.
  destruct error as [m|m|m|m code response_status request|m st];
    try (eexists; split; [reflexivity | reflexivity]).
  destruct (match code with Some c => eqb c (js "ECONNABORTED") | None => false end);
    [eexists; split; reflexivity|].
  destruct response_status; [eexists; split; reflexivity|].
  destruct request; eexists; split; reflexivity.
Qed.

Lemma startsWith_nonempty (s p : jsstring) :
  startsWith s p = true -> p <> [] -> s <> [].
Proof. destruct s, p; simpl; congruence. Qed.

Ltac nonempty_message :=
  eexists; split; [reflexivity|];
  let Hempty := fresh "Hempty" in
  intros Hempty; vm_compute in Hempty; discriminate.

(** A failed extraction of a file or of an input of no kind. *)
Lemma extract_file_throws (eng : Engine) (w : World) (f : uploaded_file) (e : exn) :
  snd (extractText eng w (File (Some f))) = Throw e ->
  exists msg, e = Error msg /\ msg <> [].
Proof.
  unfold extractText.
  destruct (eqb (mimetype f) text_plain).
  { intros H. apply try_catch_throws in H. destruct H as (e' & _ & H).
    cbn in H. inversion H. nonempty_message. }
  destruct (eqb (mimetype f) application_pdf).
  { destruct (pdf w (buffer f)); [discriminate|]. cbn. intros H. inversion H.
    nonempty_message. }
  destruct (eqb (mimetype f) docx).
  { destruct (mammoth_extractRawText w (buffer f)); [discriminate|]. cbn.
    intros H. inversion H. nonempty_message. }
  cbn. intros H. inversion H. nonempty_message.
Qed.

(** A failed extraction of a URL: the [catch] words every failure. *)
Lemma extract_url_throws (w : World) (arg : option jsstring) (e : exn) :
  snd (extract_url w arg) = Throw e ->
  exists msg, e = Error msg /\ startsWith msg (js "URL ") = true.
Proof.
  unfold extract_url. intros H. apply try_catch_throws in H.
  destruct H as (e' & _ & H).
  destruct (url_error_throws e') as (msg & Hmsg & Hstart).
  rewrite Hmsg in H. cbn in H. inversion H. eauto.
Qed.

(** X1.  Whatever the input and whatever the world answers, a failed
    extraction throws a plain [Error] with a message that is not empty: no
    exception of the runtime, of the HTTP client or of an extractor
    leaves [extractText] as it is.  For a URL the message starts with
    [URL ]. *)
Theorem extractText_fails_with_Error (eng : Engine) (w : World) (i : input) (e : exn) :
  snd (extractText eng w i) = Throw e ->
  exists msg, e = Error msg /\ msg <> [] /\
              (forall arg, i = Url arg -> startsWith msg (js "URL ") = true).
Proof.
  destruct i as [d|[f|]|arg|].
  - discriminate.
  - intros H. apply extract_file_throws in H. destruct H as (msg & -> & Hne).
    exists msg. repeat split; [exact Hne | discriminate].
  - cbn. intros H. inversion H. eexists. repeat split; [|discriminate].
    intros Hempty. vm_compute in Hempty. discriminate.
  - intros H. apply extract_url_throws in H. destruct H as (msg & -> & Hstart).
    exists msg. repeat split; [|auto].
    apply (startsWith_nonempty msg (js "URL ") Hstart).
    intros Hempty. vm_compute in Hempty. discriminate.
  - cbn. intros H. inversion H. eexists. repeat split; [|discriminate].
    intros Hempty. vm_compute in Hempty. discriminate.
Qed.

Lemma extractText_fails_with_Error_witness :
  exists msg, Error (js "URL Fehler: Ungültige URL.") = Error msg /\ msg <> [] /\
              (forall arg, Url (Some Examples.archive_url) = Url arg ->
                           startsWith msg (js "URL ") = true).
Proof.
  apply (extractText_fails_with_Error Reference.engine Examples.offline
           (Url (Some Examples.archive_url))).
  vm_compute. reflexivity.
Defined.

Lemma or_else_nonempty (a b : jsstring) : b <> [] -> or_else a b <> [].
Proof. destruct a; simpl; [auto | discriminate]. Qed.

Lemma ask_throws (eng : Engine) (k : kind) (m : model) (n : Z) (p : jsstring) (e : exn) :
  snd (ask eng k m n p) = Throw e -> exists msg, e = Error msg /\ msg <> [].
Proof.
  destruct k; unfold ask, ask_flashcards, ask_quiz; intros H;
    apply try_catch_throws in H; destruct H as (e' & _ & H).
  - cbn in H. inversion H. eexists. split; [reflexivity|].
    apply or_else_nonempty. intros Hempty. vm_compute in Hempty. discriminate.
  - unfold quiz_error in H. cbn in H. inversion H. eexists. split; [reflexivity|].
    apply or_else_nonempty. intros Hempty. vm_compute in Hempty. discriminate.
Qed.

(** X2.  A generation that fails throws a plain [Error] with a message that
    is not empty, whatever the model answers and whatever the parser or the
    validation throws: both [catch] blocks rebuild the exception, so no
    [SyntaxError], [TypeError] or rejection of the model client leaves
    [generateFlashcardsAI] or [generateQuizAI] as it is. *)
Theorem generate_fails_with_Error (eng : Engine) (w : World) (k : kind)
        (text : jsstring) (count : Z) (e : exn) :
  snd (generate eng w k text count) = Throw e ->
  exists msg, e = Error msg /\ msg <> [].
Proof.
  rewrite generate_unfold.
  destruct (model_of w k) as [m|].
  - destruct (too_short (minimum_length k) text); [discriminate|].
    cbn [snd]. apply ask_throws.
  - cbn. intros H. inversion H. eexists. split; [reflexivity|].
    destruct k; intros Hempty; vm_compute in Hempty; discriminate.
Qed.

Lemma generate_fails_with_Error_witness :
  exists msg,
    Error (js "Konnte das Quiz aus der KI-Antwort nicht korrekt extrahieren: Unexpected token in JSON")
    = Error msg /\ msg <> [].
Proof.
  apply (generate_fails_with_Error Reference.engine (Examples.replying (js "[1, 2,]"))
           Quiz Examples.sentence 5).
  vm_compute. reflexivity.
Defined.

(** ** What a route answers *)

(** X3.  Once the upload is accepted and the input chosen, a route answers
    with the records of the two stages, or with status 500 and the message
    of the exception that stopped them: the messages [Serverfehler
    (Flashcards).] and [Serverfehler (Quiz).] that the [catch] of the route
    keeps for an exception without a message are never sent, since no stage
    throws one. *)
Theorem route_reports_the_failing_stage (eng : Engine) (w : World) (k : kind)
        (req : request) (file : option uploaded_file) (i : input) :
  upload_single (inputFile req) = inl file ->
  select_input req file = Normal (Some i) ->
  route eng w k req =
  (fst (pipeline eng w k i (requested_count k req)),
   match snd (pipeline eng w k i (requested_count k req)) with
   | Normal records => answer k records
   | Throw e => Json_error 500 (message e)
   end).
Proof.
  intros Hupload Hselect.
  assert (Hmsg : forall e, snd (pipeline eng w k i (requested_count k req)) = Throw e ->
                           exists c rest, message e = c :: rest).
  { intros e H. unfold pipeline in H. apply bind_throws in H.
    assert (Hne : exists msg, e = Error msg /\ msg <> []).
    { destruct H as [H | (text & _ & H)].
      - destruct i as [d|[f|]|arg|]; try discriminate;
          try (cbn in H; inversion H; nonempty_message).
        + now apply extract_file_throws in H.
        + apply extract_url_throws in H. destruct H as (msg & -> & Hstart).
          exists msg. split; [reflexivity|].
          apply (startsWith_nonempty msg (js "URL ") Hstart).
          intros Hempty. vm_compute in Hempty. discriminate.
      - rewrite generate_unfold in H.
        destruct (model_of w k) as [m|].
        + destruct (too_short (minimum_length k) text); [discriminate|].
          now apply ask_throws in H.
        + cbn in H. inversion H. destruct k; nonempty_message. }
    destruct Hne as (msg & -> & Hne). destruct msg; [contradiction | cbn; eauto]. }
  destruct k; unfold route, api_generate, api_generate_quiz, serve, respond;
    rewrite Hupload, Hselect.
  - change (bind (extractText eng w i)
                 (fun textContent => generateFlashcardsAI eng w textContent (requested_maxCards req)))
      with (pipeline eng w Flashcards i (requested_count Flashcards req)).
    destruct (pipeline eng w Flashcards i (requested_count Flashcards req)) as [t [r|e]];
      [reflexivity|].
    cbn [fst snd]. destruct (Hmsg e eq_refl) as (c & rest & Hm). rewrite Hm. reflexivity.
  - change (bind (extractText eng w i)
                 (fun textContent => generateQuizAI eng w textContent (requested_numQuestions req)))
      with (pipeline eng w Quiz i (requested_count Quiz req)).
    destruct (pipeline eng w Quiz i (requested_count Quiz req)) as [t [r|e]];
      [reflexivity|].
    cbn [fst snd]. destruct (Hmsg e eq_refl) as (c & rest & Hm). rewrite Hm. reflexivity.
Qed.

Lemma route_reports_the_failing_stage_witness :
  route Reference.engine Examples.offline Flashcards
        (Examples.text_request Examples.sentence None)
  = ([], Json_error 500 (js "KI-Dienst (Flashcard) nicht verfügbar.")).
Proof.
  rewrite (route_reports_the_failing_stage Reference.engine Examples.offline Flashcards
             (Examples.text_request Examples.sentence None) None
             (Text (Some Examples.sentence)) eq_refl eq_refl).
  vm_compute. reflexivity.
Defined.

(** ** The network *)

Lemma try_catch_trace {A} (m : M A) (handler : exn -> M A) :
  fst (try_catch m handler)
  = fst m ++ match snd m with Normal _ => [] | Throw e => fst (handler e) end.
Proof.
  unfold try_catch. destruct m as [t [a|e]]; cbn [fst snd].
  - now rewrite app_nil_r.
  - destruct (handler e); reflexivity.
Qed.

Lemma bind_trace {A B} (m : M A) (k : A -> M B) :
  fst (bind m k)
  = fst m ++ match snd m with Normal a => fst (k a) | Throw _ => [] end.
Proof.
  unfold bind. destruct m as [t [a|e]]; cbn [fst snd].
  - destruct (k a); reflexivity.
  - now rewrite app_nil_r.
Qed.

Lemma url_error_trace (error : exn) : fst (url_error error) = [].
Proof. destruct (url_error_throws error) as (msg & -> & _). reflexivity. Qed.

(** Reading a page asks nothing of the network. *)
Lemma extract_html_network (w : World) (htmlContent : response_data) :
  network_calls (fst (extract_html w htmlContent)) = [].
Proof.
  unfold extract_html. rewrite bind_trace.
  destruct (cheerio_text w htmlContent) as [select|e]; [|reflexivity].
  cbn [lift fst snd app].
  destruct (_ =? 0); [reflexivity|].
  destruct (_ <? 150); reflexivity.
Qed.

(** X4.  An extraction asks the network for nothing but the URL it is
    given, and for that once at most: a text and a file never cause a
    request, and a URL causes exactly one when it begins with [http] and
    does not end in a binary extension, whatever the answer is (no second
    attempt follows a failure). *)
Theorem extractText_fetches_only_its_url (eng : Engine) (w : World) (i : input) :
  network_calls (fst (extractText eng w i))
  = match i with
    | Url (Some url) =>
        if startsWith url (js "http") && negb (is_binary_url url)
        then [HttpGet url] else []
    | _ => []
    end.
Proof.
  destruct i as [d|[f|]|[url|]|]; try reflexivity.
  - unfold extractText.
    destruct (eqb (mimetype f) text_plain).
    { rewrite try_catch_trace. cbn [lift fst snd].
      destruct (Buffer_toString eng (buffer f)); reflexivity. }
    destruct (eqb (mimetype f) application_pdf);
      [destruct (pdf w (buffer f)); reflexivity|].
    destruct (eqb (mimetype f) docx);
      [destruct (mammoth_extractRawText w (buffer f)); reflexivity|].
    reflexivity.
  - unfold extractText, extract_url.
    rewrite try_catch_trace.
    destruct url as [|c rest]; [reflexivity|].
    destruct (startsWith (c :: rest) (js "http")); [|reflexivity].
    destruct (is_binary_url (c :: rest)); [reflexivity|].
    cbn [negb andb].
    set (url := c :: rest).
    rewrite bind_trace. cbn [emit fst snd]. rewrite bind_trace.
    unfold network_calls. rewrite !filter_app. cbn [filter is_http_get app].
    assert (Hcatch : forall m : M jsstring,
               filter is_http_get
                 match snd m with Normal _ => [] | Throw e => fst (url_error e) end = []).
    { intros m. destruct (snd m); [reflexivity | now rewrite url_error_trace]. }
    rewrite Hcatch, app_nil_r.
    destruct (axios_get w url) as [response|e]; [|reflexivity].
    cbn [lift fst snd app].
    destruct (400 <=? status response); [reflexivity|].
    destruct (option_map toLowerCase (content_type response)) as [[|x l]|];
      [destruct (data response); reflexivity | | reflexivity].
    destruct (includes (x :: l) (js "html")); cbn [negb].
    + fold (network_calls (fst (extract_html w (data response)))).
      now rewrite extract_html_network.
    + destruct (data response); [destruct (includes (x :: l) text_plain)|]; reflexivity.
Qed.

(** A URL that is fetched: the run up to the answer of the client. *)
Lemma extract_url_fetched (eng : Engine) (w : World) (url : jsstring) :
  startsWith url (js "http") = true ->
  is_binary_url url = false ->
  extractText eng w (Url (Some url))
  = try_catch
      (bind (emit (HttpGet url)) (fun _ =>
       bind (lift (match axios_get w url with inl r => Normal r | inr e => Throw e end))
            (fun response =>
               if 400 <=? status response
               then throw (Error (js "URL Fehler: Status " ++ of_Z (status response)))
               else
                 let lowered := option_map toLowerCase (content_type response) in
                 if match lowered with
                    | None | Some [] => true
                    | Some l => negb (includes l (js "html"))
                    end
                 then
                   match lowered, data response with
                   | Some l, DataString body =>
                       if includes l text_plain then ret (substring body 0 5000)
                       else ret (js "[Kein HTML (" ++ show (content_type response) ++ js ")]")
                   | _, _ => ret (js "[Kein HTML (" ++ show (content_type response) ++ js ")]")
                   end
                 else extract_html w (data response))))
      url_error.
Proof.
  intros Hhttp Hbinary. unfold extractText, extract_url.
  rewrite Hhttp, Hbinary. destruct url; [discriminate | reflexivity].
Qed.

(** X5.  A response with a status of 400 or more fails the extraction
    after the one request, and nothing of the body is read.  The error is
    thrown inside the [try] with the prefix [URL Fehler: ] and the [catch]
    of the same function puts that prefix before the message again: the
    caller gets [URL Fehler: URL Fehler: Status] and the status. *)
Theorem extractText_reports_status_twice (eng : Engine) (w : World) (url : jsstring)
        (response : axios_response) :
  startsWith url (js "http") = true ->
  is_binary_url url = false ->
  axios_get w url = inl response ->
  400 <= status response ->
  extractText eng w (Url (Some url))
  = ([HttpGet url],
     Throw (Error (js "URL Fehler: " ++ js "URL Fehler: Status " ++ of_Z (status response)))).
Proof.
  intros Hhttp Hbinary Hget Hstatus.
  rewrite (extract_url_fetched eng w url Hhttp Hbinary), Hget.
  apply Z.leb_le in Hstatus.
  cbv beta iota zeta delta [try_catch bind emit lift throw]. rewrite Hstatus.
  reflexivity.
Qed.

Lemma extractText_reports_status_twice_witness :
  extractText Reference.engine (Web.serving Web.not_found Web.no_text) (Url (Some Web.url))
  = ([HttpGet Web.url], Throw (Error (js "URL Fehler: URL Fehler: Status 404"))).
Proof.
  apply (extractText_reports_status_twice Reference.engine
           (Web.serving Web.not_found Web.no_text) Web.url Web.not_found);
    vm_compute; try reflexivity; discriminate.
Defined.

(** X6.  A response that is declared plain text (in any case of the
    letters) and not HTML, with a status below 400 and a string as its
    body, is returned as the first 5,000 characters of the body: a prefix
    of it, the whole of a body of at most 5,000. *)
Theorem extractText_plain_text_prefix (eng : Engine) (w : World) (url : jsstring)
        (response : axios_response) (contentType body : jsstring) :
  startsWith url (js "http") = true ->
  is_binary_url url = false ->
  axios_get w url = inl response ->
  status response < 400 ->
  content_type response = Some contentType ->
  includes (toLowerCase contentType) (js "html") = false ->
  includes (toLowerCase contentType) (js "text/plain") = true ->
  data response = DataString body ->
  extractText eng w (Url (Some url))
  = ([HttpGet url], Normal (firstn (Z.to_nat 5000) body)) /\
  JsString.length (firstn (Z.to_nat 5000) body) <= 5000 /\
  (JsString.length body <= 5000 -> firstn (Z.to_nat 5000) body = body).
Proof.
  intros Hhttp Hbinary Hget Hstatus Htype Hhtml Hplain Hdata.
  split.
  - rewrite (extract_url_fetched eng w url Hhttp Hbinary), Hget.
    apply Z.leb_gt in Hstatus.
    cbv beta iota zeta delta [try_catch bind emit lift throw]. rewrite Hstatus, Htype, Hdata.
    cbn [option_map].
    destruct (toLowerCase contentType) as [|c l] eqn:Hlow; [discriminate|].
    rewrite Hhtml. cbn [negb]. change text_plain with (js "text/plain"). rewrite Hplain.
    cbn [ret app]. rewrite substring_prefix by lia. reflexivity.
  - unfold JsString.length. split.
    + rewrite length_firstn. lia.
    + intros Hle. apply firstn_all2. lia.
Qed.

Lemma extractText_plain_text_prefix_witness :
  extractText Reference.engine (Web.serving (Web.plain Examples.long_text) Web.no_text)
              (Url (Some Web.url))
  = ([HttpGet Web.url], Normal (firstn (Z.to_nat 5000) Examples.long_text)).
Proof.
  refine (proj1 (extractText_plain_text_prefix Reference.engine
                   (Web.serving (Web.plain Examples.long_text) Web.no_text) Web.url
                   (Web.plain Examples.long_text) (js "Text/Plain; charset=utf-8")
                   Examples.long_text _ _ eq_refl _ eq_refl _ _ eq_refl));
    vm_compute; reflexivity.
Defined.

(** ** The text of a page *)

Lemma no_white_run_step (a b : char) (rest : jsstring) :
  no_white_run (a :: b :: rest)
  = negb (is_white_space a && is_white_space b) && no_white_run (b :: rest).
Proof. reflexivity. Qed.

Lemma no_white_run_tail (c : char) (s : jsstring) :
  no_white_run (c :: s) = true -> no_white_run s = true.
Proof.
  destruct s as [|b rest]; [reflexivity|].
  rewrite no_white_run_step. intros H. apply andb_prop in H. apply H.
Qed.

Lemma no_white_run_cons (c : char) (s : jsstring) :
  is_white_space c = false -> no_white_run s = true -> no_white_run (c :: s) = true.
Proof.
  intros Hc Hs. destruct s as [|b rest]; [reflexivity|].
  rewrite no_white_run_step, Hc, Hs. reflexivity.
Qed.

(** After the replacement no two white-space characters are in a row. *)
Lemma collapse_from_no_white_run (s : jsstring) (pending : list char) :
  no_white_run (collapse_from pending s) = true.
Proof.
  revert pending. induction s as [|c rest IH]; intros pending.
  - destruct pending as [|w [|w' p]]; reflexivity.
  - cbn [collapse_from]. destruct (is_white_space c) eqn:Hc; [apply IH|].
    assert (Hkeep : no_white_run (c :: collapse_from [] rest) = true)
      by (apply no_white_run_cons; [exact Hc | apply IH]).
    destruct pending as [|w [|w' p]]; cbn [app]; [exact Hkeep | |];
      rewrite no_white_run_step, Hc, andb_false_r; exact Hkeep.
Qed.

Lemma trimStart_no_white_run (s : jsstring) :
  no_white_run s = true -> no_white_run (trimStart s) = true.
Proof.
  induction s as [|c rest IH]; [reflexivity|].
  intros H. cbn [trimStart]. destruct (is_white_space c); [|exact H].
  apply IH. apply (no_white_run_tail c). exact H.
Qed.

Lemma trimStart_head (s : jsstring) : is_white_space (hd 0%N (trimStart s)) = false.
Proof.
  induction s as [|c rest IH]; [reflexivity|].
  cbn [trimStart]. destruct (is_white_space c) eqn:Hc; [exact IH | exact Hc].
Qed.

(** What is left of a text trimmed at its end begins as the text does. *)
Lemma trimEnd_head (s : jsstring) (k : char) (ks : jsstring) :
  trimEnd s = k :: ks -> exists rest, s = k :: rest.
Proof.
  destruct s as [|c rest]; [discriminate|].
  cbn [trimEnd]. destruct (trimEnd rest); [destruct (is_white_space c)|];
    intros H; inversion H; eauto.
Qed.

Lemma trimEnd_no_white_run (s : jsstring) :
  no_white_run s = true -> no_white_run (trimEnd s) = true.
Proof.
  induction s as [|c rest IH]; [reflexivity|].
  intros H. cbn [trimEnd].
  destruct (trimEnd rest) as [|k ks] eqn:Hkept;
    [destruct (is_white_space c); reflexivity|].
  destruct (trimEnd_head rest k ks Hkept) as [rest' ->].
  pose proof (IH (no_white_run_tail c _ H)) as Hrest.
  rewrite no_white_run_step in H |- *. apply andb_prop in H. destruct H as [Hpair _].
  rewrite Hpair. exact Hrest.
Qed.

Lemma trimEnd_last (s : jsstring) : is_white_space (last (trimEnd s) 0%N) = false.
Proof.
  induction s as [|c rest IH]; [reflexivity|].
  cbn [trimEnd]. destruct (trimEnd rest) as [|k ks];
    [destruct (is_white_space c) eqn:Hc; [reflexivity | exact Hc]|].
  exact IH.
Qed.

Lemma trimEnd_keeps_head (s : jsstring) :
  is_white_space (hd 0%N s) = false -> hd 0%N (trimEnd s) = hd 0%N s.
Proof.
  destruct s as [|c rest]; [reflexivity|].
  cbn [hd trimEnd]. intros Hc. rewrite Hc. destruct (trimEnd rest); reflexivity.
Qed.

(** [trim] leaves no white space at either end and adds no run. *)
Lemma trim_tidy (s : jsstring) : no_white_run s = true -> tidy (trim s).
Proof.
  intros H. unfold tidy, trim. repeat split.
  - rewrite trimEnd_keeps_head; apply trimStart_head.
  - apply trimEnd_last.
  - apply trimEnd_no_white_run, trimStart_no_white_run, H.
Qed.

Lemma extract_html_result (w : World) (htmlContent : response_data) (t : jsstring) :
  snd (extract_html w htmlContent) = Normal t ->
  t <> [] /\ (t = js "[Kein Text von URL extrahiert.]" \/ tidy t).
Proof.
  unfold extract_html.
  destruct (cheerio_text w htmlContent) as [select|e]; [|discriminate].
  cbv beta iota zeta delta [bind lift].
  set (text := trim (collapse_whitespace _)).
  assert (Htidy : tidy text) by (apply trim_tidy, collapse_from_no_white_run).
  unfold JsString.length.
  destruct text as [|c rest] eqn:Htext.
  - cbn. intros H. inversion H. split; [|now left].
    intros Hempty. vm_compute in Hempty. discriminate.
  - replace (Z.of_nat (List.length (c :: rest)) =? 0) with false
      by (symmetry; apply Z.eqb_neq; cbn [List.length]; lia).
    destruct (_ <? 150); cbn; intros H; inversion H; (split; [discriminate | now right]).
Qed.

(** X7.  What is extracted from an HTML page is never the empty string: it
    is the marker of a page without text, or a text with white space
    neither at its start nor at its end and with no two white-space
    characters in a row (line ends and tabs among them). *)
Theorem extractText_page_text_is_tidy (eng : Engine) (w : World) (url : jsstring)
        (response : axios_response) (contentType t : jsstring) :
  startsWith url (js "http") = true ->
  is_binary_url url = false ->
  axios_get w url = inl response ->
  content_type response = Some contentType ->
  includes (toLowerCase contentType) (js "html") = true ->
  snd (extractText eng w (Url (Some url))) = Normal t ->
  t <> [] /\ (t = js "[Kein Text von URL extrahiert.]" \/ tidy t).
Proof.
  intros Hhttp Hbinary Hget Htype Hhtml.
  rewrite (extract_url_fetched eng w url Hhttp Hbinary), Hget.
  cbv beta iota zeta delta [try_catch bind emit lift throw].
  destruct (400 <=? status response).
  { destruct (url_error_throws (Error (js "URL Fehler: Status " ++ of_Z (status response))))
      as (msg & -> & _). discriminate. }
  rewrite Htype. cbn [option_map].
  destruct (toLowerCase contentType) as [|c l]; [discriminate|].
  rewrite Hhtml. cbn [negb].
  destruct (extract_html w (data response)) as [trace [text|e]] eqn:Hpage.
  - cbn [snd]. intros H. inversion H. subst text.
    apply (extract_html_result w (data response)). now rewrite Hpage.
  - destruct (url_error_throws e) as (msg & -> & _). discriminate.
Qed.

Lemma extractText_page_text_is_tidy_witness :
  js "Cells divide." <> [] /\
  (js "Cells divide." = js "[Kein Text von URL extrahiert.]" \/ tidy (js "Cells divide.")).
Proof.
  apply (extractText_page_text_is_tidy Reference.engine (Web.serving Web.page Web.page_texts)
           Web.url Web.page (js "text/HTML; charset=utf-8") (js "Cells divide."));
    vm_compute; reflexivity.
Defined.

(** ** Uploads *)

Lemma eqb_eq (a b : jsstring) : eqb a b = true <-> a = b.
Proof. unfold eqb. destruct (list_eq_dec N.eq_dec a b); split; congruence. Qed.

(** X8.  The allow-list of the upload middleware and the dispatch of the
    extraction agree: a file that the middleware lets through has one of
    the three media types the extraction knows, so its extraction warns of
    nothing and never fails for an unsupported type.  The last branch of
    the dispatch is left to calls that do not come through the routes. *)
Theorem accepted_upload_is_supported (eng : Engine) (w : World)
        (part : option uploaded_file) (f : uploaded_file) :
  upload_single part = inl (Some f) ->
  (mimetype f = text_plain \/ mimetype f = application_pdf \/ mimetype f = docx) /\
  fst (extractText eng w (File (Some f))) = [] /\
  forall type, snd (extractText eng w (File (Some f)))
               <> Throw (Error (js "Nicht unterstützter Dateityp: " ++ type)).
Proof.
  intros Hupload. apply upload_single_accepts in Hupload.
  destruct Hupload as (_ & Hallowed & _).
  unfold allowedTypes in Hallowed. cbn [existsb] in Hallowed.
  rewrite orb_false_r in Hallowed.
  assert (Hcases : mimetype f = text_plain \/ mimetype f = application_pdf \/ mimetype f = docx).
  { apply orb_prop in Hallowed. destruct Hallowed as [H | H];
      [left; now apply eqb_eq|].
    apply orb_prop in H. destruct H as [H | H]; [right; left | right; right];
      now apply eqb_eq. }
  split; [exact Hcases|].
  unfold extractText.
  destruct Hcases as [-> | [-> | ->]].
  - replace (eqb text_plain text_plain) with true by (vm_compute; reflexivity).
    rewrite try_catch_trace. cbn [lift fst snd].
    destruct (Buffer_toString eng (buffer f)) as [text|e]; cbn;
      (split; [reflexivity | intros type H; inversion H; discriminate]).
  - replace (eqb application_pdf text_plain) with false by (vm_compute; reflexivity).
    replace (eqb application_pdf application_pdf) with true by (vm_compute; reflexivity).
    destruct (pdf w (buffer f)); cbn;
      (split; [reflexivity | intros type H; inversion H; discriminate]).
  - replace (eqb docx text_plain) with false by (vm_compute; reflexivity).
    replace (eqb docx application_pdf) with false by (vm_compute; reflexivity).
    replace (eqb docx docx) with true by (vm_compute; reflexivity).
    destruct (mammoth_extractRawText w (buffer f)); cbn;
      (split; [reflexivity | intros type H; inversion H; discriminate]).
Qed.

Lemma accepted_upload_is_supported_witness :
  (mimetype Examples.notes = text_plain \/ mimetype Examples.notes = application_pdf
   \/ mimetype Examples.notes = docx) /\
  fst (extractText Reference.engine Examples.offline (File (Some Examples.notes))) = [] /\
  forall type, snd (extractText Reference.engine Examples.offline (File (Some Examples.notes)))
               <> Throw (Error (js "Nicht unterstützter Dateityp: " ++ type)).
Proof.
  apply (accepted_upload_is_supported Reference.engine Examples.offline
           (Some Examples.notes) Examples.notes).
  vm_compute. reflexivity.
Defined.

(** ** What a generation asks of the outside *)

Lemma read_trace (eng : Engine) (k : kind) (n : Z) (reply : jsstring) :
  model_calls (fst (read eng k n reply)) = [] /\
  network_calls (fst (read eng k n reply)) = [] /\
  (List.length (parser_calls (fst (read eng k n reply))) <= 1)%nat.
Proof.
  destruct k; unfold read.
  - rewrite read_flashcards_unfold.
    destruct (bad_boundary reply); cbn; auto.
  - rewrite read_quiz_unfold.
    destruct (bad_boundary reply); [cbn; auto|].
    destruct (JSON_parse eng _) as [[| | | |items|]|]; try (cbn; auto; fail).
    unfold validation. destruct items as [|q rest]; [cbn; auto|].
    destruct (structure_suspect eng q) as [[]|]; cbn; auto.
Qed.

Lemma ask_trace (eng : Engine) (k : kind) (m : model) (n : Z) (p : jsstring) :
  exists rest,
    fst (ask eng k m n p) = ModelCall p :: rest /\
    model_calls rest = [] /\ network_calls rest = [] /\
    (List.length (parser_calls rest) <= 1)%nat.
Proof.
  destruct (m p) as [msg st | b f | reply] eqn:Hm.
  - destruct k; unfold ask, ask_flashcards, ask_quiz, generateContent;
      cbv beta iota delta [try_catch bind emit ret lift throw quiz_error];
      rewrite Hm; cbn; eexists; repeat split; auto.
  - destruct k; unfold ask, ask_flashcards, ask_quiz, generateContent;
      cbv beta iota delta [try_catch bind emit ret lift throw quiz_error];
      rewrite Hm; cbn; eexists; repeat split; auto.
  - rewrite (ask_reply eng k m n p reply Hm). cbn [fst].
    eexists. split; [reflexivity|]. apply read_trace.
Qed.

(** X9.  A generation never asks the network for anything; it calls the
    model once at most (a failure is not tried again), and the parser once
    at most and only in a run that has called the model. *)
Theorem generate_asks_once (eng : Engine) (w : World) (k : kind)
        (text : jsstring) (count : Z) :
  network_calls (fst (generate eng w k text count)) = [] /\
  (List.length (model_calls (fst (generate eng w k text count))) <= 1)%nat /\
  (List.length (parser_calls (fst (generate eng w k text count)))
   <= List.length (model_calls (fst (generate eng w k text count))))%nat.
Proof.
  rewrite generate_unfold.
  destruct (model_of w k) as [m|]; [|cbn; auto].
  destruct (too_short (minimum_length k) text); [cbn; auto|].
  cbv zeta. cbn [fst].
  destruct (ask_trace eng k m (clamp k count)
              (prompt k (clamp k count) (substring text 0 MAX_TEXT_LENGTH)))
    as (rest & -> & Hmodel & Hnetwork & Hparser).
  unfold model_calls, network_calls, parser_calls in *.
  rewrite !filter_app. cbn [filter is_http_get is_model_call is_json_parse].
  rewrite Hmodel, Hnetwork.
  unfold truncation_warning. destruct (_ <? _); cbn; auto.
Qed.

(** X10.  When the model client rejects the call with a message and a
    status, the generation fails after that one call with nothing parsed.
    The generation of a quiz reports the message with the status after it;
    the generation of flashcards reports the message and drops the
    status. *)
Theorem rejection_status_reaches_quiz_only (eng : Engine) (w : World) (k : kind)
        (text : jsstring) (count : Z) (m : model) (msg : jsstring) (st : Z) :
  model_of w k = Some m ->
  too_short (minimum_length k) text = false ->
  m (prompt k (clamp k count) (substring text 0 MAX_TEXT_LENGTH)) = Rejected msg (Some st) ->
  st <> 0 ->
  msg <> [] ->
  generate eng w k text count
  = (truncation_warning k text
       ++ [ModelCall (prompt k (clamp k count) (substring text 0 MAX_TEXT_LENGTH))],
     Throw (Error match k with
                  | Flashcards => msg
                  | Quiz => msg ++ js " (Status: " ++ of_Z st ++ js ")"
                  end)).
Proof.
  intros Hm Hlong Hrejected Hst Hmsg.
  rewrite generate_unfold, Hm, Hlong. cbv zeta.
  apply Z.eqb_neq in Hst.
  destruct msg as [|c rest]; [contradiction|].
  destruct k; unfold ask, ask_flashcards, ask_quiz, generateContent;
    cbv beta iota zeta delta [try_catch bind emit ret lift throw quiz_error message];
    rewrite Hrejected; cbn [fst snd app]; [reflexivity|].
  rewrite Hst. reflexivity.
Qed.

Lemma rejection_status_reaches_quiz_only_witness :
  generate Reference.engine
    (Examples.world {| genAI := true; modelFlashcard := None;
                       modelQuiz := Some (fun _ => Rejected (js "Quota exceeded") (Some 429)) |})
    Quiz Examples.sentence 5
  = ([ModelCall (quiz_prompt 5 Examples.sentence)],
     Throw (Error (js "Quota exceeded (Status: 429)"))).
Proof.
  apply (rejection_status_reaches_quiz_only Reference.engine
           (Examples.world {| genAI := true; modelFlashcard := None;
                              modelQuiz := Some (fun _ => Rejected (js "Quota exceeded") (Some 429)) |})
           Quiz Examples.sentence 5 (fun _ => Rejected (js "Quota exceeded") (Some 429))
           (js "Quota exceeded") 429);
    vm_compute; try reflexivity; discriminate.
Defined.

(** ** When a generation succeeds *)

Lemma structure_suspect_null (eng : Engine) :
  structure_suspect eng JNull = Throw (TypeError (null_property_message eng (js "question"))).
Proof. reflexivity. Qed.

(** X11.  When the model has replied with a text, the generation returns
    records exactly when the reply has its two brackets in order, the
    parser reads an array between them and, for a quiz, the first record
    of the array is not [null]; the text around the brackets and the shape
    of the records decide nothing else. *)
Theorem generate_succeeds_exactly_when (eng : Engine) (w : World) (k : kind)
        (text : jsstring) (count : Z) (m : model) (reply : jsstring) :
  model_of w k = Some m ->
  too_short (minimum_length k) text = false ->
  m (prompt k (clamp k count) (substring text 0 MAX_TEXT_LENGTH)) = Reply reply ->
  (exists records, snd (generate eng w k text count) = Normal records) <->
  (bad_boundary reply = false /\
   exists items, JSON_parse eng (bracketed reply) = inl (JArray items) /\
                 (k = Quiz -> forall rest, items <> JNull :: rest)).
Proof.
  intros Hm Hlong Hreply. split.
  - intros [records Hreturn].
    rewrite (generate_reply eng w k text count m reply Hm Hlong Hreply) in Hreturn.
    cbn [snd] in Hreturn. destruct k; unfold read in Hreturn.
    + rewrite read_flashcards_unfold in Hreturn.
      destruct (bad_boundary reply); [discriminate|]. split; [reflexivity|].
      destruct (JSON_parse eng _) as [[| | | |items|]|]; try discriminate.
      exists items. split; [reflexivity | discriminate].
    + rewrite read_quiz_unfold in Hreturn.
      destruct (bad_boundary reply); [discriminate|]. split; [reflexivity|].
      destruct (JSON_parse eng _) as [[| | | |items|]|]; try discriminate.
      exists items. split; [reflexivity|].
      intros _ rest ->. cbn [snd validation] in Hreturn.
      rewrite structure_suspect_null in Hreturn. discriminate.
  - intros (Hgood & items & Hparse & Hnull).
    eexists. apply (records_pass_through eng w k text count m reply items); assumption.
Qed.

Lemma generate_succeeds_exactly_when_witness :
  (exists records,
      snd (generate Reference.engine (Examples.replying Examples.chatty_reply) Quiz
                    Examples.sentence 5) = Normal records) <->
  (bad_boundary Examples.chatty_reply = false /\
   exists items, JSON_parse Reference.engine (bracketed Examples.chatty_reply)
                 = inl (JArray items) /\
                 (Quiz = Quiz -> forall rest, items <> JNull :: rest)).
Proof.
  exact (generate_succeeds_exactly_when Reference.engine
           (Examples.replying Examples.chatty_reply) Quiz Examples.sentence 5
           (fun _ => Reply Examples.chatty_reply) Examples.chatty_reply
           eq_refl eq_refl eq_refl).
Defined.

(** ** Plain text in ASCII *)

Lemma utf8_decode_ascii (bytes : list byte) :
  Forall (fun b => (Byte.to_N b <= 0x7F)%N) bytes ->
  utf8_decode bytes = map Byte.to_N bytes.
Proof.
  unfold utf8_decode. induction 1 as [|b rest Hb _ IH]; [reflexivity|].
  cbn [utf8_decode_from utf8_step map]. unfold utf8_lead.
  apply N.leb_le in Hb. rewrite Hb. cbn [app]. now rewrite IH.
Qed.

(** X12.  A plain-text upload in ASCII comes out of the extraction as it
    went in: one character for each byte, with the code of the byte, and
    so as many characters as the file has bytes. *)
Theorem ascii_upload_is_unchanged (eng : Engine) (w : World)
        (part : option uploaded_file) (f : uploaded_file) :
  fileSize_limit <= MAX_STRING_LENGTH eng ->
  upload_single part = inl (Some f) ->
  mimetype f = text_plain ->
  Forall (fun b => (Byte.to_N b <= 0x7F)%N) (buffer f) ->
  extractText eng w (File (Some f)) = ([], Normal (map Byte.to_N (buffer f))) /\
  JsString.length (map Byte.to_N (buffer f)) = size f.
Proof.
  intros Hmax Hupload Hmime Hascii.
  apply upload_single_accepts in Hupload. destruct Hupload as (_ & _ & Hsize).
  split; [|unfold JsString.length, size; now rewrite length_map].
  unfold extractText, Buffer_toString. rewrite Hmime.
  replace (eqb text_plain text_plain) with true by (vm_compute; reflexivity).
  rewrite (utf8_decode_ascii (buffer f) Hascii).
  unfold JsString.length. rewrite length_map. unfold size in Hsize.
  destruct (Z.ltb_spec (MAX_STRING_LENGTH eng) (Z.of_nat (List.length (buffer f))));
    [lia | reflexivity].
Qed.

Lemma ascii_upload_is_unchanged_witness :
  extractText Reference.engine Examples.offline
    (File (Some {| originalname := js "a.txt"; mimetype := text_plain;
                   buffer := list_byte_of_string "Cells divide." |}))
  = ([], Normal (js "Cells divide.")) /\
  JsString.length (js "Cells divide.") = 13.
Proof.
  apply (ascii_upload_is_unchanged Reference.engine Examples.offline
           (Some {| originalname := js "a.txt"; mimetype := text_plain;
                    buffer := list_byte_of_string "Cells divide." |})
           {| originalname := js "a.txt"; mimetype := text_plain;
              buffer := list_byte_of_string "Cells divide." |}).
  - vm_compute. discriminate.
  - reflexivity.
  - reflexivity.
  - repeat constructor; vm_compute; discriminate.
Defined.

(** ** The pattern of binary files *)





(** ** The order of the stages *)

(** X14.  A route extracts the text before the generation looks whether
    the service is configured: with no service, a request whose input is
    accepted and extracted is answered with status 500 and the message of
    the missing service after everything the extraction does, a fetch of
    the URL among it. *)
Theorem extraction_precedes_the_service_guard (eng : Engine) (w : World) (k : kind)
        (req : request) (file : option uploaded_file) (i : input)
        (trace : list event) (text : jsstring) :
  model_of w k = None ->
  upload_single (inputFile req) = inl file ->
  select_input req file = Normal (Some i) ->
  extractText eng w i = (trace, Normal text) ->
  route eng w k req = (trace, Json_error 500 (unavailable k)).
Proof.
  intros Hnone Hupload Hselect Hextract.
  assert (Hgen : forall count, generate eng w k text count
                               = ([], Throw (Error (unavailable k))))
    by (intros count; now rewrite generate_unfold, Hnone).
  destruct k; unfold route, api_generate, api_generate_quiz, serve, respond, bind;
    rewrite Hupload, Hselect, Hextract.
  - change (generateFlashcardsAI eng w text (requested_maxCards req))
      with (generate eng w Flashcards text (requested_maxCards req)).
    rewrite Hgen, app_nil_r. reflexivity.
  - change (generateQuizAI eng w text (requested_numQuestions req))
      with (generate eng w Quiz text (requested_numQuestions req)).
    rewrite Hgen, app_nil_r. reflexivity.
Qed.

Lemma extraction_precedes_the_service_guard_witness :
  route Reference.engine (Web.serving (Web.plain Examples.sentence) Web.no_text)
        Quiz Web.url_request
  = ([HttpGet Web.url], Json_error 500 (unavailable Quiz)).
Proof.
  apply (extraction_precedes_the_service_guard Reference.engine
           (Web.serving (Web.plain Examples.sentence) Web.no_text) Quiz Web.url_request
           None (Url (Some Web.url)) [HttpGet Web.url] Examples.sentence);
    vm_compute; reflexivity.
Defined.

(** ** The count parameter, written and read *)









(** ** Client errors *)





(** ** The validation of a question *)

Lemma valid_index_integer (n : Z) : valid_index (JInt n) = index_in_range n.
Proof.
  unfold valid_index, JInt, number_ge_0, number_le_3, index_in_range.
  cbn [Z.ltb Z.compare Z.eqb andb]. rewrite orb_false_r.
  destruct (Z.leb_spec 0 n), (Z.leb_spec n 0), (Z.leb_spec n 3); cbn; try reflexivity; lia.
Qed.

Lemma valid_indices_integer (indices : list Z) :
  forallb valid_index (map JInt indices) = forallb index_in_range indices.
Proof.
  induction indices as [|n rest IH]; [reflexivity|].
  cbn [map forallb]. now rewrite valid_index_integer, IH.
Qed.

(** X17.  For a first record with a string as question, four options and
    an array of integers that is not empty as indices of the right
    answers, the validation warns exactly when one of the indices is not
    between 0 and 3; such a record never fails the generation.  What the
    options are is not looked at. *)
Theorem question_of_the_schema_is_checked_by_its_indices (eng : Engine)
        (members : list (jsstring * json)) (question : jsstring) (options : list json)
        (indices : list Z) (rest : list json) :
  lookup (js "question") members = Some (JString question) ->
  lookup (js "options") members = Some (JArray options) ->
  List.length options = 4%nat ->
  lookup (js "correctAnswerIndices") members = Some (JArray (map JInt indices)) ->
  indices <> [] ->
  validation eng (JObject members :: rest)
  = (if forallb index_in_range indices then [] else [Warn structure_warning], None).
Proof.
  intros Hquestion Hoptions Hfour Hindices Hsome.
  unfold validation, structure_suspect. cbn [get].
  rewrite Hquestion, Hoptions, Hindices, Hfour. cbn [is_string negb Z.of_nat].
  replace (Z.pos (Pos.of_succ_nat 3) =? 4) with true by reflexivity. cbn [negb].
  rewrite length_map, valid_indices_integer.
  destruct indices as [|n indices]; [contradiction|].
  replace (Z.of_nat (List.length (n :: indices)) =? 0) with false
    by (symmetry; apply Z.eqb_neq; cbn [List.length]; lia).
  cbn [orb]. destruct (forallb index_in_range (n :: indices)); reflexivity.
Qed.

Lemma question_of_the_schema_is_checked_by_its_indices_witness :
  validation Reference.engine
    [JObject [(js "question", JString (js "Q"));
              (js "options", JArray [JInt 1; JInt 2; JInt 3; JInt 4]);
              (js "correctAnswerIndices", JArray (map JInt [0; 4]))]]
  = ([Warn structure_warning], None).
Proof.
  apply (question_of_the_schema_is_checked_by_its_indices Reference.engine
           [(js "question", JString (js "Q"));
            (js "options", JArray [JInt 1; JInt 2; JInt 3; JInt 4]);
            (js "correctAnswerIndices", JArray (map JInt [0; 4]))]
           (js "Q") [JInt 1; JInt 2; JInt 3; JInt 4] [0; 4] []);
    try reflexivity; discriminate.
Defined.

(** ** Responses that are no page *)

(** X18.  A response with a status below 400 whose content type is
    missing, or names neither HTML nor plain text, or names plain text
    with a body that is no string, is no failure: the extraction returns
    the marker with the content type between its brackets, [undefined]
    for a missing one, and reads nothing of the body. *)
Theorem extractText_marks_other_content (eng : Engine) (w : World) (url : jsstring)
        (response : axios_response) :
  startsWith url (js "http") = true ->
  is_binary_url url = false ->
  axios_get w url = inl response ->
  status response < 400 ->
  (forall contentType,
      content_type response = Some contentType ->
      includes (toLowerCase contentType) (js "html") = false /\
      (includes (toLowerCase contentType) (js "text/plain") = false \/
       data response = DataOther)) ->
  extractText eng w (Url (Some url))
  = ([HttpGet url],
     Normal (js "[Kein HTML (" ++ show (content_type response) ++ js ")]")).
Proof.
  intros Hhttp Hbinary Hget Hstatus Hother.
  rewrite (extract_url_fetched eng w url Hhttp Hbinary), Hget.
  apply Z.leb_gt in Hstatus.
  cbv beta iota zeta delta [try_catch bind emit lift throw]. rewrite Hstatus.
  destruct (content_type response) as [contentType|]; [|reflexivity].
  destruct (Hother contentType eq_refl) as [Hhtml Hplain].
  cbn [option_map].
  destruct (toLowerCase contentType) as [|c l].
  - destruct (data response); reflexivity.
  - rewrite Hhtml. cbn [negb].
    destruct Hplain as [Hplain | Hdata].
    + change text_plain with (js "text/plain"). rewrite Hplain.
      destruct (data response); reflexivity.
    + rewrite Hdata. reflexivity.
Qed.

Lemma extractText_marks_other_content_witness :
  extractText Reference.engine
    (Web.serving {| status := 200; content_type := None; data := DataOther |} Web.no_text)
    (Url (Some Web.url))
  = ([HttpGet Web.url], Normal (js "[Kein HTML (undefined)]")).
Proof.
  apply (extractText_marks_other_content Reference.engine
           (Web.serving {| status := 200; content_type := None; data := DataOther |} Web.no_text)
           Web.url {| status := 200; content_type := None; data := DataOther |});
    try (vm_compute; reflexivity).
  intros contentType H. discriminate H.
Defined.

(** ** A request with a text, from end to end *)

Lemma not_too_short_not_blank (minimum : Z) (s : jsstring) :
  0 < minimum -> too_short minimum s = false -> blank (Some s) = false.
Proof.
  intros Hmin Hlong. unfold too_short in Hlong. destruct s as [|c rest]; [discriminate|].
  apply Z.ltb_ge in Hlong. unfold blank, JsString.length in *.
  destruct (trim (c :: rest)); [cbn in Hlong; lia | reflexivity].
Qed.

Lemma minimum_length_positive (k : kind) : 0 < minimum_length k.
Proof. destruct k; reflexivity. Qed.

Lemma route_text (eng : Engine) (w : World) (k : kind) (req : request)
      (file : option uploaded_file) (s : jsstring) :
  inputType req = Some (js "text") ->
  textData req = Some s ->
  blank (Some s) = false ->
  upload_single (inputFile req) = inl file ->
  route eng w k req
  = (fst (generate eng w k s (requested_count k req)),
     match snd (generate eng w k s (requested_count k req)) with
     | Normal records => answer k records
     | Throw e => Json_error 500 (or_else (message e)
                                          (js match k with
                                              | Flashcards => "Serverfehler (Flashcards)."
                                              | Quiz => "Serverfehler (Quiz)."
                                              end))
     end).
Proof.
  intros Htype Htext Hblank Hupload.
  assert (Hselect : select_input req file = Normal (Some (Text (Some s)))).
  { unfold select_input. rewrite Htype, Htext, Hblank. reflexivity. }
  destruct k; unfold route, api_generate, api_generate_quiz, serve, respond;
    rewrite Hupload, Hselect; cbn [extractText ret bind app generate requested_count answer].
  - destruct (generateFlashcardsAI eng w s (requested_maxCards req)) as [t [r|e]]; reflexivity.
  - destruct (generateQuizAI eng w s (requested_numQuestions req)) as [t [r|e]]; reflexivity.
Qed.

(** X19.  With the service configured, a request of type [text] whose text
    is not blank but shorter, trimmed, than the minimum of the kind is
    answered with status 200 and without any effect: the one placeholder
    card for flashcards, no question for a quiz.  The count of the request
    plays no part. *)
Theorem short_text_is_answered_with_the_placeholder (eng : Engine) (w : World) (k : kind)
        (req : request) (file : option uploaded_file) (s : jsstring) (m : model) :
  inputType req = Some (js "text") ->
  textData req = Some s ->
  upload_single (inputFile req) = inl file ->
  model_of w k = Some m ->
  0 < JsString.length (trim s) < minimum_length k ->
  route eng w k req
  = ([], match k with
         | Flashcards => Json_flashcards [placeholder_card]
         | Quiz => Json_quiz []
         end).
Proof.
  intros Htype Htext Hupload Hm [Hsome Hshort].
  assert (Hblank : blank (Some s) = false).
  { unfold blank, JsString.length in *. destruct (trim s); [cbn in Hsome; lia | reflexivity]. }
  rewrite (route_text eng w k req file s Htype Htext Hblank Hupload).
  rewrite generate_unfold, Hm, too_short_trim;
    [destruct k; reflexivity | apply minimum_length_positive | exact Hshort].
Qed.

Lemma short_text_is_answered_with_the_placeholder_witness :
  route Reference.engine (Examples.replying (js "[]")) Flashcards
        (Examples.text_request Examples.padded (Some (js "20")))
  = ([], Json_flashcards [placeholder_card]).
Proof.
  apply (short_text_is_answered_with_the_placeholder Reference.engine
           (Examples.replying (js "[]")) Flashcards
           (Examples.text_request Examples.padded (Some (js "20"))) None Examples.padded
           (fun _ => Reply (js "[]")));
    try reflexivity.
  vm_compute. split; reflexivity.
Defined.

(** X20.  From end to end: for a request of type [text] with a text long
    enough, a configured service and a reply in which the parser reads an
    array between the brackets (for a quiz, one whose first record is not
    [null]), the route answers with status 200 and the first records of
    that array, as many as the clamped count of the request at most, in
    their order and unchanged. *)
Theorem text_request_is_answered_with_the_records (eng : Engine) (w : World) (k : kind)
        (req : request) (file : option uploaded_file) (s : jsstring) (m : model)
        (reply : jsstring) (items : list json) :
  inputType req = Some (js "text") ->
  textData req = Some s ->
  upload_single (inputFile req) = inl file ->
  model_of w k = Some m ->
  too_short (minimum_length k) s = false ->
  m (prompt k (clamp k (requested_count k req)) (substring s 0 MAX_TEXT_LENGTH)) = Reply reply ->
  bad_boundary reply = false ->
  JSON_parse eng (bracketed reply) = inl (JArray items) ->
  (k = Quiz -> forall rest, items <> JNull :: rest) ->
  snd (route eng w k req)
  = answer k (firstn (Z.to_nat (clamp k (requested_count k req))) items).
Proof.
  intros Htype Htext Hupload Hm Hlong Hreply Hgood Hparse Hnull.
  pose proof (not_too_short_not_blank (minimum_length k) s
                (minimum_length_positive k) Hlong) as Hblank.
  rewrite (route_text eng w k req file s Htype Htext Hblank Hupload). cbn [snd].
  now rewrite (records_pass_through eng w k s (requested_count k req) m reply items
                 Hm Hlong Hreply Hgood Hparse Hnull).
Qed.

Lemma text_request_is_answered_with_the_records_witness :
  snd (route Reference.engine (Examples.replying (js "[1, 2, 3, 4, 5]")) Quiz
             (Examples.text_request Examples.sentence (Some (js "4"))))
  = Json_quiz [JInt 1; JInt 2; JInt 3; JInt 4].
Proof.
  apply (text_request_is_answered_with_the_records Reference.engine
           (Examples.replying (js "[1, 2, 3, 4, 5]")) Quiz
           (Examples.text_request Examples.sentence (Some (js "4"))) None Examples.sentence
           (fun _ => Reply (js "[1, 2, 3, 4, 5]")) (js "[1, 2, 3, 4, 5]")
           [JInt 1; JInt 2; JInt 3; JInt 4; JInt 5]);
    try (vm_compute; reflexivity).
  intros _ rest H. discriminate H.
Defined.
